(** * Substack2Markdown: the discovery, extraction and archive pipeline

    A shallow embedding of [substack_scraper.py].  A Python [str] is a Rocq
    string whose characters are the code points below 256; the file system
    is a finite map from paths to file contents; the libraries the script
    calls ([requests], [BeautifulSoup], [ElementTree], [html2text],
    [markdown]) are a record of functions the pipeline is parameterised
    by. *)

From Stdlib Require Import Ascii ZArith.
From stdpp Require Import base strings list gmap.

#[local] Set Warnings "-register-all".

(** ** Python [str] operations *)

Module Str.

(** [s.startswith(p)] *)
Fixpoint startswith (p s : string) : bool :=
  match p, s with
  | EmptyString, _ => true
  | String a p', String b s' => Ascii.eqb a b && startswith p' s'
  | String _ _, EmptyString => false
  end.

(** [k in u] on strings: [k] occurs in [u] as a contiguous substring. *)
Fixpoint contains (k u : string) : bool :=
  startswith k u ||
  match u with
  | EmptyString => false
  | String _ u' => contains k u'
  end.

(** [s.split(c)] for a one-character separator: never empty. *)
Fixpoint split (c : ascii) (s : string) : list string :=
  match s with
  | EmptyString => [EmptyString]
  | String a s' =>
      if Ascii.eqb a c then EmptyString :: split c s'
      else match split c s' with
           | h :: t => String a h :: t
           | [] => [String a EmptyString]
           end
  end.

(** [i = s.find(c)] together with the slices [s[:i]] and [s[i+1:]];
    [None] when [find] returns -1. *)
Fixpoint partition (c : ascii) (s : string) : option (string * string) :=
  match s with
  | EmptyString => None
  | String a s' =>
      if Ascii.eqb a c then Some (EmptyString, s')
      else match partition c s' with
           | Some (l, r) => Some (String a l, r)
           | None => None
           end
  end.

(** the longest prefix of [s] none of whose characters satisfies [stop] *)
Fixpoint take_until (stop : ascii -> bool) (s : string) : string :=
  match s with
  | EmptyString => EmptyString
  | String a s' => if stop a then EmptyString else String a (take_until stop s')
  end.

Fixpoint forallb (f : ascii -> bool) (s : string) : bool :=
  match s with
  | EmptyString => true
  | String a s' => f a && forallb f s'
  end.

Definition between (lo hi : nat) (a : ascii) : bool :=
  (lo <=? nat_of_ascii a)%nat && (nat_of_ascii a <=? hi)%nat.

(** [c.isspace()]: tab to carriage return, the four separators 0x1c to
    0x1f, the space, and above ASCII the next-line control 0x85 and the
    no-break space 0xa0. *)
Definition isspace (a : ascii) : bool :=
  between 9 13 a || between 28 32 a || between 133 133 a || between 160 160 a.

(** The decimal digits [0] to [9]. *)
Definition isdecimal_char (a : ascii) : bool := between 48 57 a.

(** [c.isdigit()]: the decimal digits, and the superscripts two, three
    (0xb2, 0xb3) and one (0xb9), which Unicode classes as digits. *)
Definition isdigit_char (a : ascii) : bool :=
  isdecimal_char a || between 178 179 a || between 185 185 a.

(** [c.isascii() and c.isalpha()] *)
Definition isalpha_char (a : ascii) : bool :=
  between 65 90 a || between 97 122 a.

(** [s.isdigit()]: at least one character and all of them digits. *)
Definition isdigit (s : string) : bool :=
  match s with
  | EmptyString => false
  | String _ _ => forallb isdigit_char s
  end.

Fixpoint lstrip (s : string) : string :=
  match s with
  | EmptyString => EmptyString
  | String a s' => if isspace a then lstrip s' else s
  end.

Fixpoint rstrip (s : string) : string :=
  match s with
  | EmptyString => EmptyString
  | String a s' =>
      match rstrip s' with
      | EmptyString => if isspace a then EmptyString else String a EmptyString
      | r => String a r
      end
  end.

(** [s.strip()] *)
Definition strip (s : string) : string := rstrip (lstrip s).

(** truthiness of a string: [bool(s)] *)
Definition truthy (s : string) : bool :=
  match s with EmptyString => false | String _ _ => true end.

(** ["sep".join(parts)] *)
Definition join (sep : string) (parts : list string) : string :=
  String.concat sep parts.

End Str.

(** ** A Python call either returns or raises *)

Inductive exn : Type :=
  | ConnectionError
  | ParseError
  | TypeError
  | ValueError
  | IndexError.

Inductive result (A : Type) : Type :=
  | Ok (a : A)
  | Raise (e : exn).
Arguments Ok {A} a.
Arguments Raise {A} e.

#[global] Instance result_ret : MRet result := fun _ a => Ok a.

#[global] Instance result_bind : MBind result := fun _ _ k m =>
  match m with
  | Ok a => k a
  | Raise e => Raise e
  end.

#[global] Instance result_fmap : FMap result := fun _ _ f m =>
  match m with
  | Ok a => Ok (f a)
  | Raise e => Raise e
  end.

(** ** Canonical writer name *)

(** [urllib.parse.urlsplit]: the characters allowed in a scheme *)
Definition scheme_char (a : ascii) : bool :=
  Str.isalpha_char a || Str.isdecimal_char a
  || Ascii.eqb a "+" || Ascii.eqb a "-" || Ascii.eqb a ".".

Definition first_isalpha (s : string) : bool :=
  match s with
  | EmptyString => false
  | String a _ => Str.isalpha_char a
  end.

(** What [urlsplit] leaves after it has removed a leading [scheme:]. *)
Definition strip_scheme (url : string) : string :=
  match Str.partition ":" url with
  | Some (pre, rest) =>
      if Str.truthy pre && first_isalpha url && Str.forallb scheme_char pre
      then rest else url
  | None => url
  end.

Definition netloc_delim (a : ascii) : bool :=
  Ascii.eqb a "/" || Ascii.eqb a "?" || Ascii.eqb a "#".

(** [urlparse(url).netloc], for a URL of printable ASCII characters
    without square brackets: [urlsplit] first discards control characters
    and spaces, and rejects a network location with an unmatched bracket
    or with characters that normalise to a delimiter. *)
Definition urlparse_netloc (url : string) : string :=
  match strip_scheme url with
  | String a (String b rest) =>
      if Ascii.eqb a "/" && Ascii.eqb b "/"
      then Str.take_until netloc_delim rest
      else EmptyString
  | _ => EmptyString
  end.

(** [parts[1] if parts[0] == 'www' else parts[0]]; [parts[1]] raises
    [IndexError] when the host is just [www]. *)
Definition extract_main_part (url : string) : result string :=
  match Str.split "." (urlparse_netloc url) with
  | [] => Raise IndexError
  | p0 :: ps =>
      if String.eqb p0 "www"
      then match ps with
           | p1 :: _ => Ok p1
           | [] => Raise IndexError
           end
      else Ok p0
  end.

(** ** Keyword filter *)

(** [[url for url in urls if all(keyword not in url for keyword in keywords)]] *)
Definition filter_urls (urls keywords : list string) : list string :=
  List.filter (fun url => List.forallb (fun keyword => negb (Str.contains keyword url)) keywords) urls.

(** ** Parsed HTML documents *)

(** What [BeautifulSoup(content, "html.parser")] builds, as far as the
    script looks at it: text nodes, and elements with a tag name, the
    tokens of their [class] attribute and their children. *)
Inductive node : Type :=
  | Text (s : string)
  | Tag (name : string) (classes : list string) (children : list node).

(** The [BeautifulSoup] object: the top-level nodes of the document. *)
Definition soup : Type := list node.

Definition tag_name (n : node) : string :=
  match n with
  | Tag name _ _ => name
  | Text _ => EmptyString
  end.

Definition tag_classes (n : node) : list string :=
  match n with
  | Tag _ classes _ => classes
  | Text _ => []
  end.

(** [element.text]: all the text below the element, in document order. *)
Fixpoint get_text (n : node) : string :=
  match n with
  | Text s => s
  | Tag _ _ children =>
      (fix go (l : list node) : string :=
         match l with
         | [] => EmptyString
         | c :: l' => get_text c +:+ go l'
         end) children
  end.

(** The elements below (and including) [n] in document order, each with
    its chain of ancestors, nearest first. *)
Fixpoint walk (ancestors : list node) (n : node) : list (list node * node) :=
  match n with
  | Text _ => []
  | Tag _ _ children =>
      (ancestors, n) ::
      (fix go (l : list node) : list (list node * node) :=
         match l with
         | [] => []
         | c :: l' => walk (n :: ancestors) c ++ go l'
         end) children
  end.

Definition soup_elements (doc : soup) : list (list node * node) :=
  flat_map (walk []) doc.

(** *** CSS selectors ([select_one]) *)

(** [tag.class1.class2]: an optional tag name and required class tokens. *)
Record compound : Type := Compound {
  c_tag : option string;
  c_classes : list string
}.

(** A chain [c1 c2 ... cn] of compounds joined by the descendant
    combinator, and a comma-separated list of such chains. *)
Definition complex : Type := list compound.
Definition selector : Type := list complex.

Definition match_compound (c : compound) (n : node) : bool :=
  match n with
  | Text _ => false
  | Tag name classes _ =>
      match c_tag c with
      | Some t => String.eqb t name
      | None => true
      end
      && List.forallb (fun k => List.existsb (String.eqb k) classes) (c_classes c)
  end.

(** [outer] lists the compounds still to be matched, innermost first,
    against the ancestors, nearest first. *)
Fixpoint match_ancestors (outer : list compound) (ancestors : list node) : bool :=
  match outer with
  | [] => true
  | c :: outer' =>
      (fix find (l : list node) : bool :=
         match l with
         | [] => false
         | a :: l' => (match_compound c a && match_ancestors outer' l') || find l'
         end) ancestors
  end.

Definition match_complex (cx : complex) (p : list node * node) : bool :=
  match rev cx with
  | [] => false
  | c :: outer => match_compound c p.2 && match_ancestors outer p.1
  end.

Definition match_selector (sel : selector) (p : list node * node) : bool :=
  List.existsb (fun cx => match_complex cx p) sel.

(** [soup.select_one(sel)]: the first matching element in document order. *)
Definition select_one (sel : selector) (doc : soup) : option node :=
  snd <$> List.find (match_selector sel) (soup_elements doc).

(** *** [soup.find(name, class_=c)] *)

(** BeautifulSoup matches [class_] against each token of the attribute
    and against the tokens joined by single spaces. *)
Definition bs4_class_match (c : string) (n : node) : bool :=
  List.existsb (String.eqb c) (tag_classes n)
  || String.eqb (Str.join " " (tag_classes n)) c.

Definition soup_find (name c : string) (doc : soup) : option node :=
  snd <$> List.find (fun p => String.eqb (tag_name p.2) name && bs4_class_match c p.2)
                    (soup_elements doc).

(** ** Parsed XML documents ([xml.etree.ElementTree]) *)

Inductive xml : Type :=
  | XmlElem (tag : string) (text : option string) (children : list xml).

Definition xml_tag (x : xml) : string := match x with XmlElem t _ _ => t end.
Definition xml_text (x : xml) : option string := match x with XmlElem _ t _ => t end.
Definition xml_children (x : xml) : list xml := match x with XmlElem _ _ cs => cs end.

(** [root.iter()]: the element and everything below it, document order. *)
Fixpoint xml_iter (x : xml) : list xml :=
  match x with
  | XmlElem _ _ children =>
      x :: (fix go (l : list xml) : list xml :=
              match l with
              | [] => []
              | c :: l' => xml_iter c ++ go l'
              end) children
  end.

(** [root.iter(tag)] *)
Definition xml_iter_tag (t : string) (root : xml) : list xml :=
  List.filter (fun x => String.eqb (xml_tag x) t) (xml_iter root).

(** [root.findall('.//' + tag)]: the elements below the root, not the
    root itself. *)
Definition xml_findall_desc (t : string) (root : xml) : list xml :=
  List.filter (fun x => String.eqb (xml_tag x) t) (flat_map xml_iter (xml_children root)).

(** [item.find(tag)]: the first child with that tag. *)
Definition xml_find (t : string) (x : xml) : option xml :=
  List.find (fun c => String.eqb (xml_tag c) t) (xml_children x).

(** ** Ledger records *)

(** The dictionary [scrape_posts] appends for every saved post. *)
Record essay : Type := Essay {
  title : string;
  subtitle : string;
  like_count : string;
  date : string;
  file_link : string;
  html_link : string
}.

#[global] Instance essay_eq_dec : EqDecision essay.
Proof. solve_decision. Defined.

(** ** The libraries and the network *)

Record http_response : Type := Response {
  ok : bool;
  content : string
}.

Record World : Type := {
  (** [requests.get(url)]: a response, or a transport error raised *)
  requests_get : string -> result http_response;
  (** [BeautifulSoup(content, "html.parser")] *)
  BeautifulSoup : string -> soup;
  (** [ET.fromstring(content)]: raises [ParseError] on malformed XML *)
  ET_fromstring : string -> result xml;
  (** [str(tag)] *)
  tag_str : node -> string;
  (** [html2text.HTML2Text().handle], links kept, no line wrapping *)
  html2text_handle : string -> string;
  (** [markdown.markdown(md, extensions=['extra'])] *)
  markdown_markdown : string -> string;
  (** the document [save_to_html_file] wraps around the content, with
      its stylesheet path relative to the file's directory *)
  html_document : string -> string -> string;
  (** [driver.get(url); driver.page_source] of the logged-in browser *)
  driver_page_source : string -> result string;
  (** the author page [generate_html_file] fills from its template *)
  author_page : string -> list essay -> string
}.

(** ** Module constants *)

Definition BASE_HTML_DIR : string := "substack_html_pages".
Definition sitemap_loc : string := "{http://www.sitemaps.org/schemas/sitemap/0.9}loc".
Definition date_class : string :=
  "pencraft pc-reset _color-pub-secondary-text_3axfk_207 _line-height-20_3axfk_95 _font-meta_3axfk_131 _size-11_3axfk_35 _weight-medium_3axfk_162 _transform-uppercase_3axfk_242 _reset_3axfk_1 _meta_3axfk_442".
Definition nl : string := String (ascii_of_nat 10) EmptyString.
(** [self.keywords] *)
Definition KEYWORDS : list string := ["about"; "archive"; "podcast"].

(** [h1.post-title, h2] *)
Definition title_selector : selector :=
  [[Compound (Some "h1") ["post-title"]]; [Compound (Some "h2") []]].
(** [h3.subtitle] *)
Definition subtitle_selector : selector := [[Compound (Some "h3") ["subtitle"]]].
(** [a.post-ufi-button .label] *)
Definition like_selector : selector :=
  [[Compound (Some "a") ["post-ufi-button"]; Compound None ["label"]]].
(** [div.available-content] *)
Definition content_selector : selector := [[Compound (Some "div") ["available-content"]]].

(** ** Paths and file names *)

Fixpoint ends_with_slash (s : string) : bool :=
  match s with
  | EmptyString => false
  | String a EmptyString => Ascii.eqb a "/"
  | String _ s' => ends_with_slash s'
  end.

(** [os.path.join(a, b)] on POSIX *)
Definition os_path_join (a b : string) : string :=
  if Str.startswith "/" b then b
  else if negb (Str.truthy a) || ends_with_slash a then a +:+ b
  else a +:+ "/" +:+ b.

(** [url.split("/")[-1] + filetype], a dot put before [filetype] when it
    has none *)
Definition get_filename_from_url (url filetype : string) : string :=
  let filetype := if Str.startswith "." filetype then filetype else "." +:+ filetype in
  List.last (Str.split "/" url) EmptyString +:+ filetype.

(** ** Post extractor *)

Definition combine_metadata_and_content (title subtitle date like_count content : string) : string :=
  let metadata := "# " +:+ title +:+ nl +:+ nl in
  let metadata := if Str.truthy subtitle
                  then metadata +:+ "## " +:+ subtitle +:+ nl +:+ nl
                  else metadata in
  let metadata := metadata +:+ "**" +:+ date +:+ "**" +:+ nl +:+ nl in
  let metadata := metadata +:+ "**Likes:** " +:+ like_count +:+ nl +:+ nl in
  metadata +:+ content.

Section Extractor.
Context (W : World).

Definition html_to_md (html_content : string) : string :=
  html2text_handle W html_content.

Definition md_to_html (md_content : string) : string :=
  markdown_markdown W md_content.

(** [e.text.strip() if e and e.text else ""] *)
Definition extract_subtitle (doc : soup) : string :=
  match select_one subtitle_selector doc with
  | Some e => if Str.truthy (get_text e) then Str.strip (get_text e) else ""
  | None => ""
  end.

Definition extract_date (doc : soup) : string :=
  match soup_find "div" date_class doc with
  | Some e => if Str.truthy (get_text e) then Str.strip (get_text e) else "Date not found"
  | None => "Date not found"
  end.

Definition extract_like_count (doc : soup) : string :=
  match select_one like_selector doc with
  | Some e =>
      if Str.truthy (get_text e) && Str.isdigit (Str.strip (get_text e))
      then Str.strip (get_text e) else "0"
  | None => "0"
  end.

(** Returns [(title, subtitle, like_count, date, md_content)], or [None]
    for a post without title or without content container. *)
Definition extract_post_data (doc : soup)
  : option (string * string * string * string * string) :=
  match select_one title_selector doc with
  | None => None
  | Some title_element =>
      if negb (Str.truthy (Str.strip (get_text title_element))) then None
      else
        let title := Str.strip (get_text title_element) in
        let subtitle := extract_subtitle doc in
        let date := extract_date doc in
        let like_count := extract_like_count doc in
        match select_one content_selector doc with
        | None => None
        | Some content_container =>
            let content := tag_str W content_container in
            let md := html_to_md content in
            let md_content :=
              combine_metadata_and_content title subtitle date like_count md in
            Some (title, subtitle, like_count, date, md_content)
        end
  end.

End Extractor.

(** ** Page fetchers *)

(** The abstract method [get_url_soup]: a document, [None], or an
    exception. *)
Class PageFetcher : Type := get_url_soup : string -> result (option soup).

(** [SubstackScraper.get_url_soup]: plain HTTP; a page with the paywall
    heading gives [None], every exception becomes a [ValueError]. *)
Definition SubstackScraper (W : World) : PageFetcher := fun url =>
  match requests_get W url with
  | Raise _ => Raise ValueError
  | Ok page =>
      let doc := BeautifulSoup W (content page) in
      match soup_find "h2" "paywall-title" doc with
      | Some _ => Ok None
      | None => Ok (Some doc)
      end
  end.

(** [PremiumSubstackScraper.get_url_soup]: the page source of the
    logged-in browser. *)
Definition PremiumSubstackScraper (W : World) : PageFetcher := fun url =>
  match driver_page_source W url with
  | Raise _ => Raise ValueError
  | Ok page_source => Ok (Some (BeautifulSoup W page_source))
  end.

(** ** URL discovery *)

Section Discovery.
Context (W : World).

(** The [loc] texts of the sitemap; [element.text] is [None] for an
    element without text. *)
Definition fetch_urls_from_sitemap (base_substack_url : string)
  : result (list (option string)) :=
  response ← requests_get W (base_substack_url +:+ "sitemap.xml");
  if negb (ok response) then Ok []
  else
    root ← ET_fromstring W (content response);
    Ok (xml_text <$> xml_iter_tag sitemap_loc root).

(** [link is not None and link.text] *)
Definition feed_item_link (item : xml) : option string :=
  match xml_find "link" item with
  | Some link =>
      match xml_text link with
      | Some t => if Str.truthy t then Some t else None
      | None => None
      end
  | None => None
  end.

Definition fetch_urls_from_feed (base_substack_url : string) : result (list string) :=
  response ← requests_get W (base_substack_url +:+ "feed.xml");
  if negb (ok response) then Ok []
  else
    root ← ET_fromstring W (content response);
    Ok (omap feed_item_link (xml_findall_desc "item" root)).

(** The argument of [filter_urls] must hold strings: on a [None] entry
    [keyword not in url] raises [TypeError]. *)
Definition as_strings (urls : list (option string)) : result (list string) :=
  match mapM id urls with
  | Some us => Ok us
  | None => Raise TypeError
  end.

Definition get_all_post_urls (base_substack_url : string) : result (list string) :=
  urls ← fetch_urls_from_sitemap base_substack_url;
  urls ← match urls with
         | [] => fmap (M := list) Some <$> fetch_urls_from_feed base_substack_url
         | _ :: _ => Ok urls
         end;
  urls ← as_strings urls;
  Ok (filter_urls urls KEYWORDS).

End Discovery.

(** ** The scraper object *)

Record scraper : Type := Scraper {
  base_substack_url : string;
  writer_name : string;
  md_save_dir : string;
  html_save_dir : string;
  keywords : list string;
  post_urls : list string
}.

(** [BaseSubstackScraper.__init__] *)
Definition init (W : World) (base_url md_dir html_dir : string) : result scraper :=
  let base_url := if ends_with_slash base_url then base_url else base_url +:+ "/" in
  writer ← extract_main_part base_url;
  urls ← get_all_post_urls W base_url;
  Ok {| base_substack_url := base_url;
        writer_name := writer;
        md_save_dir := md_dir +:+ "/" +:+ writer;
        html_save_dir := html_dir +:+ "/" +:+ writer;
        keywords := KEYWORDS;
        post_urls := urls |}.

(** ** Archive store *)

(** The files on disk, by path, and the ledger [data/<writer>.json]:
    absent, or the list of records it holds. *)
Record disk : Type := Disk {
  files : gmap string string;
  ledger : option (list essay)
}.

(** Writes only when nothing exists at [filepath]. *)
Definition save_to_file (filepath content : string) (fs : gmap string string)
  : gmap string string :=
  match fs !! filepath with
  | Some _ => fs
  | None => <[filepath := content]> fs
  end.

Definition save_to_html_file (W : World) (filepath content : string)
    (fs : gmap string string) : gmap string string :=
  <[filepath := html_document W filepath content]> fs.

Definition save_essays_data_to_json (essays_data : list essay)
    (ledger : option (list essay)) : option (list essay) :=
  match ledger with
  | Some existing_data =>
      Some (existing_data ++ filter (fun data => data ∉ existing_data) essays_data)
  | None => Some essays_data
  end.

(** Reads the ledger and writes the author page; [scrape_posts] calls it
    right after [save_essays_data_to_json], so the ledger file is there. *)
Definition generate_html_file (W : World) (author_name : string) (d : disk) : disk :=
  match ledger d with
  | Some essays_data =>
      {| files := <[os_path_join BASE_HTML_DIR (author_name +:+ ".html")
                    := author_page W author_name essays_data]> (files d);
         ledger := ledger d |}
  | None => d
  end.

(** ** Pipeline orchestrator *)

(** How the body of the loop of [scrape_posts] ended for one URL. *)
Inductive outcome : Type :=
  | AlreadyExists   (* the Markdown file is on disk *)
  | NoSoup          (* [get_url_soup] returned [None]: [continue] *)
  | NoPostData      (* [extract_post_data] returned [None]: [continue] *)
  | Saved           (* files written, record appended *)
  | Errored.        (* exception caught by the [except] clause *)

(** [continue] skips the [count += 1] at the end of the body. *)
Definition reaches_count (o : outcome) : bool :=
  match o with
  | NoSoup | NoPostData => false
  | AlreadyExists | Saved | Errored => true
  end.

(** The local variables of [scrape_posts] and the files; [attempts] lists
    the URLs the loop has taken so far, each with its outcome. *)
Record loop_state : Type := LoopState {
  ls_files : gmap string string;
  essays_data : list essay;
  count : Z;
  total : Z;
  attempts : list (string * outcome)
}.

Section Orchestrator.
Context (W : World) {fetcher : PageFetcher} (self : scraper).

Definition md_filepath (url : string) : string :=
  os_path_join (md_save_dir self) (get_filename_from_url url ".md").

Definition html_filepath (url : string) : string :=
  os_path_join (html_save_dir self) (get_filename_from_url url ".html").

(** The [try] block for one URL: the files and records afterwards and
    the way the block was left. *)
Definition scrape_one (url : string) (fs : gmap string string)
  : gmap string string * list essay * outcome :=
  match fs !! md_filepath url with
  | Some _ => (fs, [], AlreadyExists)
  | None =>
      match get_url_soup url with
      | Raise _ => (fs, [], Errored)
      | Ok None => (fs, [], NoSoup)
      | Ok (Some doc) =>
          match extract_post_data W doc with
          | None => (fs, [], NoPostData)
          | Some (title, subtitle, like_count, date, md) =>
              let fs := save_to_file (md_filepath url) md fs in
              let html_content := md_to_html W md in
              let fs := save_to_html_file W (html_filepath url) html_content fs in
              (fs,
               [{| title := title; subtitle := subtitle; like_count := like_count;
                   date := date; file_link := md_filepath url;
                   html_link := html_filepath url |}],
               Saved)
          end
      end
  end.

(** The [for] loop over the URLs still to come. *)
Fixpoint scrape_loop (num_posts_to_scrape : Z) (urls : list string) (st : loop_state)
  : loop_state :=
  match urls with
  | [] => st
  | url :: urls' =>
      let '(fs, new, o) := scrape_one url (ls_files st) in
      let st := {| ls_files := fs;
                   essays_data := essays_data st ++ new;
                   count := count st;
                   total := total st;
                   attempts := attempts st ++ [(url, o)] |} in
      if reaches_count o then
        let st := {| ls_files := ls_files st; essays_data := essays_data st;
                     count := count st + 1; total := total st;
                     attempts := attempts st |} in
        if negb (num_posts_to_scrape =? 0)%Z && (count st =? num_posts_to_scrape)%Z
        then st
        else scrape_loop num_posts_to_scrape urls' st
      else
        let st := {| ls_files := ls_files st; essays_data := essays_data st;
                     count := count st;
                     total := if (num_posts_to_scrape =? 0)%Z then total st - 1 else total st;
                     attempts := attempts st |} in
        scrape_loop num_posts_to_scrape urls' st
  end.

Definition scrape_init (num_posts_to_scrape : Z) (fs : gmap string string) : loop_state :=
  {| ls_files := fs;
     essays_data := [];
     count := 0;
     total := if negb (num_posts_to_scrape =? 0)%Z then num_posts_to_scrape
              else Z.of_nat (length (post_urls self));
     attempts := [] |}.

Definition scrape_posts (num_posts_to_scrape : Z) (d : disk) : disk :=
  let st := scrape_loop num_posts_to_scrape (post_urls self)
                        (scrape_init num_posts_to_scrape (files d)) in
  generate_html_file W (writer_name self)
    {| files := ls_files st;
       ledger := save_essays_data_to_json (essays_data st) (ledger d) |}.

End Orchestrator.

(** ** Vocabulary of the specification *)

(** [k] occurs in [u] as a substring. *)
Definition substring_of (k u : string) : Prop :=
  exists pre post, u = pre +:+ k +:+ post.

(** [r] is what remains of [l] when exactly the elements satisfying [P]
    are kept: same order, same multiplicity. *)
Inductive selects {A : Type} (P : A -> Prop) : list A -> list A -> Prop :=
  | selects_nil : selects P [] []
  | selects_keep x l r : P x -> selects P l r -> selects P (x :: l) (x :: r)
  | selects_drop x l r : ~ P x -> selects P l r -> selects P (x :: l) r.

(** A base URL [scheme://host], with or without the trailing slash. *)
Definition base_url (scheme host : string) (slash : bool) : string :=
  scheme +:+ "://" +:+ host +:+ (if slash then "/" else "").

(** A URL scheme: a letter, then letters, digits, [+], [-] or [.]. *)
Definition is_scheme (s : string) : bool :=
  first_isalpha s && Str.forallb scheme_char s.

(** A host is made of printable ASCII characters other than the square
    brackets and the characters that end the network location. *)
Definition host_char (a : ascii) : bool :=
  Str.between 33 126 a
  && negb (Ascii.eqb a "[") && negb (Ascii.eqb a "]")
  && negb (netloc_delim a).

Definition is_host (h : string) : bool := Str.forallb host_char h.

(** The first dot-separated component of a host. *)
Definition first_label (h : string) : string :=
  List.hd EmptyString (Str.split "." h).

(** No element of the document matches the selector. *)
Definition lacks (sel : selector) (doc : soup) : Prop :=
  forall p, p ∈ soup_elements doc -> match_selector sel p = false.

(** Only white space, or nothing at all. *)
Definition blank (s : string) : Prop := Str.forallb Str.isspace s = true.

(** The document has a [div] whose class attribute is the date class. *)
Definition has_date_element (doc : soup) : Prop :=
  exists p, p ∈ soup_elements doc
    /\ tag_name p.2 = "div" /\ bs4_class_match date_class p.2 = true.

(** The premium marker: an [h2] with the class [paywall-title]. *)
Definition has_paywall_marker (doc : soup) : Prop :=
  exists p, p ∈ soup_elements doc
    /\ tag_name p.2 = "h2" /\ "paywall-title" ∈ tag_classes p.2.

(** Reading a string as a non-negative integer in decimal notation: one
    digit or more and nothing else. *)
Definition digit_value (a : ascii) : option N :=
  if Str.isdecimal_char a then Some (N_of_ascii a - 48)%N else None.

Fixpoint parse_digits (acc : N) (s : string) : option N :=
  match s with
  | EmptyString => Some acc
  | String a s' =>
      match digit_value a with
      | Some d => parse_digits (10 * acc + d)%N s'
      | None => None
      end
  end.

Definition parse_nonneg_int (s : string) : option N :=
  match s with
  | EmptyString => None
  | String _ _ => parse_digits 0 s
  end.

(** The number of attempts that reached [count += 1]. *)
Definition counted (log : list (string * outcome)) : nat :=
  length (List.filter (fun a => reaches_count a.2) log).

(** A URL free of every keyword. *)
Definition keyword_free (keywords : list string) (url : string) : Prop :=
  forall k, k ∈ keywords -> ~ substring_of k url.

(** No character of [s] is [c]. *)
Definition free_of (c : ascii) (s : string) : bool :=
  Str.forallb (fun a => negb (Ascii.eqb a c)) s.

(** The last character of a string, when it has one. *)
Fixpoint last_char (s : string) : option ascii :=
  match s with
  | EmptyString => None
  | String a EmptyString => Some a
  | String _ s' => last_char s'
  end.

(** The number of attempts that saved a post. *)
Definition saved (log : list (string * outcome)) : nat :=
  length (List.filter (fun a => match a.2 with Saved => true | _ => false end) log).

(** What holds of the records the loop has collected, in a run started on
    the files [F0] over the URLs [urls0]: each record names the two paths
    of one of the URLs, both on disk now and the Markdown one not on disk
    at the start; no two records share a Markdown path; and there is one
    record for each saved post. *)
Definition records_sound (self : scraper) (F0 : gmap string string)
    (urls0 : list string) (st : loop_state) : Prop :=
  dom F0 ⊆ dom (ls_files st)
  /\ (forall r, r ∈ essays_data st ->
        file_link r ∈ dom (ls_files st) /\ html_link r ∈ dom (ls_files st)
        /\ (file_link r ∉ dom F0)
        /\ exists url, url ∈ urls0 /\ file_link r = md_filepath self url
                      /\ html_link r = html_filepath self url)
  /\ NoDup (file_link <$> essays_data st)
  /\ length (essays_data st) = saved (attempts st).

(** ** A small publication to run the pipeline on *)

Module Fixture.

Definition page (heading : node) (label : string) : soup :=
  [Tag "html" []
     [Tag "body" []
        [heading;
         Tag "a" ["post-ufi-button"] [Tag "div" ["label"] [Text label]];
         Tag "div" ["available-content"] [Tag "p" [] [Text "Body"]]]]].

Definition doc_a : soup := page (Tag "h1" ["post-title"] [Text " Hello "]) " 42 ".
Definition doc_b : soup := page (Tag "h2" [] [Text "World"]) "cool".
(** the one-character string of the superscript two *)
Definition superscript_two : string := String (ascii_of_nat 178) EmptyString.
Definition doc_squared : soup :=
  page (Tag "h1" ["post-title"] [Text "Squared"]) superscript_two.
Definition doc_paid : soup :=
  [Tag "h1" ["post-title"] [Text "Paid"];
   Tag "h2" ["paywall-title"] [Text "This post is for paid subscribers"];
   Tag "div" ["available-content"] [Text "Teaser"]].
Definition doc_untitled : soup :=
  [Tag "div" ["available-content"] [Text "Body"]].

Definition feed : xml :=
  XmlElem "rss" None
    [XmlElem "channel" None
       [XmlElem "link" (Some "https://pub.example/") [];
        XmlElem "item" None [XmlElem "link" (Some "https://pub.example/p/a") []];
        XmlElem "item" None [XmlElem "link" (Some "https://pub.example/p/b") []]]].

Definition sitemap : xml :=
  XmlElem "{http://www.sitemaps.org/schemas/sitemap/0.9}urlset" None
    [XmlElem "{http://www.sitemaps.org/schemas/sitemap/0.9}url" None
       [XmlElem sitemap_loc (Some "https://pub.example/p/a") []];
     XmlElem "{http://www.sitemaps.org/schemas/sitemap/0.9}url" None
       [XmlElem sitemap_loc (Some "https://pub.example/archive") []]].

(** The site answers for its posts and its feed; what it answers for the
    sitemap is left open. *)
Definition world (sitemap_response : result http_response) : World :=
  {| requests_get := fun url =>
       if String.eqb url "https://pub.example/sitemap.xml" then sitemap_response
       else if String.eqb url "https://pub.example/feed.xml" then Ok (Response true "feed")
       else if String.eqb url "https://pub.example/p/a" then Ok (Response true "a")
       else if String.eqb url "https://pub.example/p/b" then Ok (Response true "b")
       else if String.eqb url "https://pub.example/p/paid" then Ok (Response true "paid")
       else if String.eqb url "https://pub.example/p/untitled" then Ok (Response true "untitled")
       else Raise ConnectionError;
     BeautifulSoup := fun content =>
       if String.eqb content "a" then doc_a
       else if String.eqb content "b" then doc_b
       else if String.eqb content "paid" then doc_paid
       else if String.eqb content "untitled" then doc_untitled
       else [];
     ET_fromstring := fun content =>
       if String.eqb content "feed" then Ok feed
       else if String.eqb content "sitemap" then Ok sitemap
       else Raise ParseError;
     tag_str := fun n => get_text n;
     html2text_handle := fun html => html;
     markdown_markdown := fun md => md;
     html_document := fun _ content => content;
     driver_page_source := fun _ => Raise ConnectionError;
     author_page := fun author _ => author |}.

Definition site : World := world (Ok (Response true "sitemap")).

Definition pub (urls : list string) : scraper :=
  {| base_substack_url := "https://pub.example/";
     writer_name := "pub";
     md_save_dir := "substack_md_files/pub";
     html_save_dir := "substack_html_pages/pub";
     keywords := ["about"; "archive"; "podcast"];
     post_urls := urls |}.

End Fixture.

(** The fixture site with another XML parser in place of its own. *)
Definition with_xml (W : World) (parse : string -> result xml) : World :=
  {| requests_get := requests_get W;
     BeautifulSoup := BeautifulSoup W;
     ET_fromstring := parse;
     tag_str := tag_str W;
     html2text_handle := html2text_handle W;
     markdown_markdown := markdown_markdown W;
     html_document := html_document W;
     driver_page_source := driver_page_source W;
     author_page := author_page W |}.

(** * Properties *)

(** ** Strings *)

Lemma ascii_eqb_true a b : Ascii.eqb a b = true <-> a = b.
Proof. apply Ascii.eqb_eq. Qed.

Lemma startswith_spec p s :
  Str.startswith p s = true <-> exists post, s = p +:+ post.
Proof.
  revert s. induction p as [|a p IH]; intros s; simpl.
  - split; [intros _; by exists s | done].
  - destruct s as [|b s]; simpl.
    + split; [done | intros [post H]; discriminate].
    + rewrite andb_true_iff, ascii_eqb_true, IH. split.
      * intros [-> [post ->]]. by exists post.
      * intros [post H]. injection H as -> ->. split; [done | by exists post].
Qed.

Lemma contains_spec k u : Str.contains k u = true <-> substring_of k u.
Proof.
  unfold substring_of. induction u as [|b u IH]; simpl.
  - rewrite orb_false_r, startswith_spec. split.
    + intros [post H]. by exists EmptyString, post.
    + intros [pre [post H]]. destruct pre; simpl in H; [by exists post | discriminate].
  - rewrite orb_true_iff, startswith_spec, IH. split.
    + intros [[post H] | [pre [post H]]].
      * by exists EmptyString, post.
      * exists (String b pre), post. simpl. by rewrite H.
    + intros [pre [post H]]. destruct pre as [|c pre]; simpl in H.
      * left. by exists post.
      * right. injection H as -> ->. by exists pre, post.
Qed.

(** ** Selection *)

Lemma selects_functional {A} (P : A -> Prop) l r1 r2 :
  selects P l r1 -> selects P l r2 -> r1 = r2.
Proof.
  intros H1. revert r2. induction H1; intros r2 H2; inversion H2; subst;
    try done; try (f_equal; auto); auto.
Qed.

Lemma selects_filter {A} (P : A -> Prop) `{!forall x, Decision (P x)} (l : list A) :
  selects P l (filter P l).
Proof.
  induction l as [|x l IH]; [constructor |].
  destruct (decide (P x)) as [HP | HP].
  - rewrite filter_cons_True by done. by constructor.
  - rewrite filter_cons_False by done. by constructor.
Qed.

Lemma selects_list_filter {A} (P : A -> Prop) (f : A -> bool) (l : list A) :
  (forall x, f x = true <-> P x) -> selects P l (List.filter f l).
Proof.
  intros Hf. induction l as [|x l IH]; simpl; [constructor |].
  destruct (f x) eqn:E.
  - constructor; [by apply Hf | done].
  - apply selects_drop; [|done]. rewrite <- Hf, E. done.
Qed.

Lemma selects_all {A} (P : A -> Prop) (l : list A) :
  (forall x, x ∈ l -> P x) -> selects P l l.
Proof.
  induction l as [|x l IH]; intros H; constructor.
  - apply H. left.
  - apply IH. intros y Hy. apply H. by right.
Qed.

Lemma selects_elem_of {A} (P : A -> Prop) l r x :
  selects P l r -> (x ∈ r <-> x ∈ l /\ P x).
Proof.
  induction 1.
  - split; [intros H; inversion H | intros [H _]; inversion H].
  - rewrite !elem_of_cons, IHselects. intuition (subst; auto).
  - rewrite elem_of_cons, IHselects. intuition (subst; auto). by subst.
Qed.

(** ** Keyword filter *)

Lemma keyword_free_spec keywords url :
  List.forallb (fun keyword => negb (Str.contains keyword url)) keywords = true
  <-> keyword_free keywords url.
Proof.
  unfold keyword_free. rewrite forallb_forall. split.
  - intros H k Hk Hsub. apply list_elem_of_In in Hk. specialize (H k Hk).
    apply contains_spec in Hsub. rewrite Hsub in H. done.
  - intros H k Hk. apply list_elem_of_In in Hk. specialize (H k Hk).
    destruct (Str.contains k url) eqn:E; [|done].
    exfalso. apply H. by apply contains_spec.
Qed.

(** C8. [filter_urls] keeps, in their order and with their multiplicity,
    exactly the URLs in which no keyword occurs as a substring; any list
    that does so is its result; and filtering the result again with the
    same keywords changes nothing. *)
Theorem filter_urls_exact_and_idempotent (urls keywords : list string) :
  selects (keyword_free keywords) urls (filter_urls urls keywords)
  /\ (forall r, selects (keyword_free keywords) urls r -> r = filter_urls urls keywords)
  /\ filter_urls (filter_urls urls keywords) keywords = filter_urls urls keywords.
Proof.
  assert (Hsel : selects (keyword_free keywords) urls (filter_urls urls keywords)).
  { apply selects_list_filter. intros x. apply keyword_free_spec. }
  split; [done |]. split.
  - intros r Hr. eapply selects_functional; eauto.
  - eapply selects_functional; [|apply selects_all].
    + apply selects_list_filter. intros x. apply keyword_free_spec.
    + intros x Hx. by apply (selects_elem_of _ _ _ _ Hsel) in Hx as [_ ?].
Qed.

(** ** Ledger merge *)

(** C4. The merge keeps the persisted ledger as it is, as a prefix of the
    result, and appends from the batch exactly the records that are not
    in the persisted ledger, in batch order; an absent ledger file counts as
    an empty ledger. *)
Theorem ledger_merge_union (essays_data : list essay) (ledger : option (list essay)) :
  exists appended,
    save_essays_data_to_json essays_data ledger = Some (default [] ledger ++ appended)
    /\ selects (fun data => data ∉ default [] ledger) essays_data appended.
Proof.
  destruct ledger as [existing|]; simpl.
  - eexists. split; [done |]. apply selects_filter.
  - exists essays_data. split; [done |]. apply selects_all. intros x _ H. inversion H.
Qed.

Lemma count_occ_filter_True (P : essay -> Prop) `{!forall x, Decision (P x)} r l :
  P r -> count_occ essay_eq_dec (filter P l) r = count_occ essay_eq_dec l r.
Proof.
  intros HP. induction l as [|x l IH]; [done |].
  destruct (decide (P x)) as [Hx | Hx].
  - rewrite filter_cons_True by done. simpl. destruct (essay_eq_dec x r); by rewrite IH.
  - rewrite filter_cons_False by done. simpl.
    destruct (essay_eq_dec x r) as [-> | ?]; [done | by rewrite IH].
Qed.


(** ** Canonical writer name *)

Lemma partition_scheme s rest :
  Str.forallb scheme_char s = true ->
  Str.partition ":" (s +:+ String ":" rest) = Some (s, rest).
Proof.
  induction s as [|a s IH]; simpl; [done |].
  rewrite andb_true_iff. intros [Ha Hs].
  destruct (Ascii.eqb a ":") eqn:E.
  - apply Ascii.eqb_eq in E. subst a. discriminate.
  - by rewrite IH.
Qed.

Lemma strip_scheme_base s rest :
  is_scheme s = true -> strip_scheme (s +:+ String ":" rest) = rest.
Proof.
  unfold is_scheme, strip_scheme. rewrite andb_true_iff. intros [Ha Hs].
  rewrite partition_scheme by done.
  destruct s as [|a s]; [done |]. simpl in *. by rewrite Ha, Hs.
Qed.

Lemma take_until_host h tail :
  is_host h = true ->
  (tail = EmptyString \/ tail = "/") ->
  Str.take_until netloc_delim (h +:+ tail) = h.
Proof.
  unfold is_host. induction h as [|a h IH]; simpl; intros Hh Ht.
  - by destruct Ht as [-> | ->].
  - apply andb_true_iff in Hh as [Ha Hh]. unfold host_char in Ha.
    apply andb_true_iff in Ha as [_ Ha]. apply negb_true_iff in Ha.
    rewrite Ha. by rewrite IH.
Qed.

Lemma netloc_base_url scheme host slash :
  is_scheme scheme = true -> is_host host = true ->
  urlparse_netloc (base_url scheme host slash) = host.
Proof.
  intros Hs Hh. unfold urlparse_netloc, base_url.
  change (scheme +:+ "://" +:+ host +:+ (if slash then "/" else ""))
    with (scheme +:+ String ":" (String "/" (String "/" (host +:+ (if slash then "/" else ""))))).
  rewrite strip_scheme_base by done. simpl.
  apply take_until_host; [done |]. destruct slash; auto.
Qed.

Lemma split_nonempty c s : exists p ps, Str.split c s = p :: ps.
Proof.
  induction s as [|a s [p [ps IH]]]; simpl; [by eauto |].
  destruct (Ascii.eqb a c); [by eauto |]. rewrite IH. eauto.
Qed.

Lemma is_host_www host : is_host host = true -> is_host ("www." +:+ host) = true.
Proof. intros H. unfold is_host in *. simpl. exact H. Qed.

Lemma extract_main_part_www scheme host slash :
  is_scheme scheme = true -> is_host host = true ->
  extract_main_part (base_url scheme ("www." +:+ host) slash) = Ok (first_label host).
Proof.
  intros Hs Hh. unfold extract_main_part, first_label.
  rewrite netloc_base_url by auto using is_host_www.
  change (Str.split "." ("www." +:+ host)) with ("www" :: Str.split "." host).
  simpl. by destruct (split_nonempty "." host) as [p [ps ->]].
Qed.

Lemma extract_main_part_plain scheme host slash :
  is_scheme scheme = true -> is_host host = true ->
  first_label host <> "www" ->
  extract_main_part (base_url scheme host slash) = Ok (first_label host).
Proof.
  intros Hs Hh Hw. unfold extract_main_part, first_label in *.
  rewrite netloc_base_url by done.
  destruct (split_nonempty "." host) as [p [ps E]]. rewrite E in *. simpl in *.
  destruct (String.eqb p "www") eqn:Ep; [|done].
  apply String.eqb_eq in Ep. done.
Qed.

(** C9 (as amended). The writer name does not depend on the trailing
    slash of the base URL; and when the host without a leading [www.] does
    not itself begin with the component [www], the name is the first
    component of that host with and without the leading [www.]. *)
Theorem writer_name_stable (scheme host : string) (slash slash' : bool) :
  is_scheme scheme = true ->
  is_host host = true ->
  extract_main_part (base_url scheme host slash)
    = extract_main_part (base_url scheme host slash')
  /\ (first_label host <> "www" ->
      extract_main_part (base_url scheme ("www." +:+ host) slash) = Ok (first_label host)
      /\ extract_main_part (base_url scheme host slash') = Ok (first_label host)).
Proof.
  intros Hs Hh. split.
  - unfold extract_main_part. by rewrite !netloc_base_url.
  - intros Hw. split.
    + by apply extract_main_part_www.
    + by apply extract_main_part_plain.
Qed.

Lemma writer_name_stable_witness :
  extract_main_part "https://thefitzwilliam.com/" = extract_main_part "https://thefitzwilliam.com"
  /\ extract_main_part "https://www.thefitzwilliam.com/" = Ok "thefitzwilliam"
  /\ extract_main_part "https://thefitzwilliam.com" = Ok "thefitzwilliam".
Proof.
  destruct (writer_name_stable "https" "thefitzwilliam.com" true false eq_refl eq_refl)
    as [Hslash Hwww].
  split; [exact Hslash |]. apply Hwww. discriminate.
Defined.

(** C9, as stated, fails: one leading [www] is removed and no more, so
    with the host [www.example.com], putting [www.] in front changes the
    name from [example] to [www]. *)
Lemma writer_name_www_counterexample :
  ~ (forall scheme host slash,
       is_scheme scheme = true -> is_host host = true ->
       extract_main_part (base_url scheme ("www." +:+ host) slash)
       = extract_main_part (base_url scheme host slash)).
Proof.
  intros H. specialize (H "https" "www.example.com" true eq_refl eq_refl).
  vm_compute in H. discriminate.
Qed.

(** ** Stripping and digits *)

Lemma lstrip_blank s : Str.forallb Str.isspace (Str.lstrip s) = Str.forallb Str.isspace s.
Proof.
  induction s as [|a s IH]; simpl; [done |].
  destruct (Str.isspace a) eqn:E; simpl; [done | by rewrite E].
Qed.

Lemma rstrip_empty s : Str.rstrip s = EmptyString <-> blank s.
Proof.
  unfold blank. induction s as [|a s IH]; simpl; [done |].
  destruct (Str.rstrip s) eqn:Er.
  - destruct (Str.isspace a); simpl; [by rewrite <- IH | done].
  - split; [done |]. rewrite andb_true_iff. intros [_ H].
    apply IH in H. discriminate.
Qed.

Lemma strip_empty s : Str.strip s = EmptyString <-> blank s.
Proof. unfold Str.strip. rewrite rstrip_empty. unfold blank. by rewrite lstrip_blank. Qed.

Lemma truthy_false s : Str.truthy s = false <-> s = EmptyString.
Proof. by destruct s. Qed.

Lemma parse_digits_some acc s :
  is_Some (parse_digits acc s) <-> Str.forallb Str.isdecimal_char s = true.
Proof.
  revert acc. induction s as [|a s IH]; intros acc; simpl.
  - split; [done | by eauto].
  - unfold digit_value. destruct (Str.isdecimal_char a); simpl.
    + apply IH.
    + split; [intros [x H]; discriminate | done].
Qed.

Lemma forallb_decimal_digit s :
  Str.forallb Str.isdecimal_char s = true -> Str.forallb Str.isdigit_char s = true.
Proof.
  induction s as [|a s IH]; simpl; [done |].
  rewrite !andb_true_iff. intros [Ha Hs]. split; [|auto].
  unfold Str.isdigit_char. by rewrite Ha.
Qed.

(** A string that reads as a decimal number passes [isdigit]. *)
Lemma parses_isdigit s : is_Some (parse_nonneg_int s) -> Str.isdigit s = true.
Proof.
  destruct s as [|a s]; [intros [x H]; discriminate |].
  unfold Str.isdigit, parse_nonneg_int. rewrite parse_digits_some.
  apply forallb_decimal_digit.
Qed.

(** ** Searching a document *)

Lemma find_None_iff {A} (f : A -> bool) (l : list A) :
  List.find f l = None <-> forall x, x ∈ l -> f x = false.
Proof.
  induction l as [|y l IH]; simpl.
  - split; [intros _ x H; inversion H | done].
  - destruct (f y) eqn:E.
    + split; [done |]. intros H. rewrite (H y) in E; [done | left].
    + rewrite IH. split.
      * intros H x Hx. apply elem_of_cons in Hx as [-> | Hx]; auto.
      * intros H x Hx. apply H. by right.
Qed.

Lemma select_one_None sel doc : select_one sel doc = None <-> lacks sel doc.
Proof.
  unfold select_one, lacks. rewrite <- find_None_iff.
  destruct (List.find _ _); simpl; split; done.
Qed.

Lemma soup_find_None name c doc :
  soup_find name c doc = None <->
  forall p, p ∈ soup_elements doc ->
    String.eqb (tag_name p.2) name && bs4_class_match c p.2 = false.
Proof.
  unfold soup_find. rewrite <- find_None_iff.
  destruct (List.find _ _); simpl; split; done.
Qed.

Lemma existsb_eqb_elem_of (c : string) (l : list string) :
  List.existsb (String.eqb c) l = true <-> c ∈ l.
Proof.
  rewrite existsb_exists. split.
  - intros [x [Hx E]]. apply String.eqb_eq in E. subst. by apply list_elem_of_In.
  - intros H. exists c. split; [by apply list_elem_of_In | apply String.eqb_refl].
Qed.

(** ** Post extractor *)

(** C5. Extraction returns [None] exactly when no element matches the
    title selector, or the text of the first one that does is blank, or no
    element matches the content selector; and a document without subtitle
    element, when it is extracted, has the empty subtitle. *)
Theorem extract_post_data_absent_iff (W : World) (doc : soup) :
  (extract_post_data W doc = None <->
     lacks title_selector doc
     \/ (exists e, select_one title_selector doc = Some e /\ blank (get_text e))
     \/ lacks content_selector doc)
  /\ (lacks subtitle_selector doc ->
      forall t s lc d md, extract_post_data W doc = Some (t, s, lc, d, md) -> s = EmptyString).
Proof.
  split.
  - unfold extract_post_data. rewrite <- !select_one_None.
    destruct (select_one title_selector doc) as [te|] eqn:Et; [|by split; auto].
    destruct (Str.truthy (Str.strip (get_text te))) eqn:Es; simpl.
    + destruct (select_one content_selector doc) as [ce|] eqn:Ec; [|by split; auto].
      split; [done |]. intros [H | [[e [He Hb]] | H]]; try done.
      injection He as <-. apply strip_empty in Hb. by rewrite Hb in Es.
    + split; [|done]. intros _. right. left. exists te. split; [done |].
      apply strip_empty. by apply truthy_false.
  - intros Hsub t s lc d md. unfold extract_post_data.
    destruct (select_one title_selector doc) as [te|]; [|done].
    destruct (negb _); [done |].
    destruct (select_one content_selector doc) as [ce|]; [|done].
    intros H. injection H as _ <- _ _ _. unfold extract_subtitle.
    apply select_one_None in Hsub. by rewrite Hsub.
Qed.

Example like_count_numeric :
  extract_post_data Fixture.site Fixture.doc_a
  = Some ("Hello", "", "42", "Date not found",
          combine_metadata_and_content "Hello" "" "Date not found" "42" "Body").
Proof. reflexivity. Qed.

Example like_count_not_numeric :
  extract_post_data Fixture.site Fixture.doc_b
  = Some ("World", "", "0", "Date not found",
          combine_metadata_and_content "World" "" "Date not found" "0" "Body").
Proof. reflexivity. Qed.

Example untitled_not_extracted :
  extract_post_data Fixture.site Fixture.doc_untitled = None.
Proof. reflexivity. Qed.

Lemma extract_like_count_spec doc e :
  select_one like_selector doc = Some e ->
  extract_like_count doc =
    if Str.isdigit (Str.strip (get_text e)) then Str.strip (get_text e) else "0".
Proof.
  intros He. unfold extract_like_count. rewrite He.
  destruct (Str.truthy (get_text e)) eqn:Et; [done |].
  apply truthy_false in Et. by rewrite Et.
Qed.

(** C6 (as amended). In an extracted post, the like count is the stripped
    text of the like label exactly when [isdigit] holds of that text, as it
    does of every text that reads as a non-negative integer, and is ["0"]
    when it does not hold or when there is no label; without date element
    the date is ["Date not found"]. *)
Theorem like_count_and_date (W : World) (doc : soup) (t s lc d md : string) :
  extract_post_data W doc = Some (t, s, lc, d, md) ->
  (forall e, select_one like_selector doc = Some e ->
     (lc = Str.strip (get_text e) <-> Str.isdigit (Str.strip (get_text e)) = true)
     /\ (Str.isdigit (Str.strip (get_text e)) = false -> lc = "0")
     /\ (is_Some (parse_nonneg_int (Str.strip (get_text e))) -> lc = Str.strip (get_text e)))
  /\ (lacks like_selector doc -> lc = "0")
  /\ (~ has_date_element doc -> d = "Date not found").
Proof.
  unfold extract_post_data.
  destruct (select_one title_selector doc) as [te|]; [|done].
  destruct (negb _); [done |].
  destruct (select_one content_selector doc) as [ce|]; [|done].
  intros H. injection H as _ _ <- <- _. split; [|split].
  - intros e He. rewrite (extract_like_count_spec _ _ He).
    destruct (Str.isdigit (Str.strip (get_text e))) eqn:Ed.
    + by repeat split.
    + split; [|split; [done |]].
      * split; [|done]. intros E0. by rewrite <- E0 in Ed.
      * intros Hp. apply parses_isdigit in Hp. congruence.
  - intros Hl. apply select_one_None in Hl. unfold extract_like_count. by rewrite Hl.
  - intros Hd. unfold extract_date.
    destruct (soup_find "div" date_class doc) as [de|] eqn:E; [|done].
    exfalso. apply Hd. unfold soup_find in E.
    destruct (List.find _ _) as [p|] eqn:Ef; [|done].
    apply find_some in Ef as [Hin Hm]. apply andb_true_iff in Hm as [Hn Hc].
    exists p. split; [by apply list_elem_of_In |].
    split; [by apply String.eqb_eq | done].
Qed.

Lemma like_count_and_date_witness :
  (forall e, select_one like_selector Fixture.doc_a = Some e ->
     ("42" = Str.strip (get_text e) <-> Str.isdigit (Str.strip (get_text e)) = true)
     /\ (Str.isdigit (Str.strip (get_text e)) = false -> "42" = "0")
     /\ (is_Some (parse_nonneg_int (Str.strip (get_text e))) -> "42" = Str.strip (get_text e)))
  /\ (lacks like_selector Fixture.doc_a -> "42" = "0")
  /\ (~ has_date_element Fixture.doc_a -> "Date not found" = "Date not found").
Proof.
  exact (like_count_and_date Fixture.site Fixture.doc_a _ _ _ _ _ like_count_numeric).
Defined.

(** C6, as stated, fails on a label that is a superscript two: the label
    does not read as an integer, and the like count is the label, not
    ["0"]. *)
Lemma like_count_superscript_counterexample :
  select_one like_selector Fixture.doc_squared
    = Some (Tag "div" ["label"] [Text Fixture.superscript_two])
  /\ parse_nonneg_int (Str.strip Fixture.superscript_two) = None
  /\ extract_post_data Fixture.site Fixture.doc_squared
     = Some ("Squared", "", Fixture.superscript_two, "Date not found",
             combine_metadata_and_content "Squared" "" "Date not found"
               Fixture.superscript_two "Body")
  /\ Fixture.superscript_two <> "0".
Proof. repeat split. discriminate. Qed.

(** ** Page fetcher *)

Lemma paywall_marker_found doc :
  has_paywall_marker doc -> is_Some (soup_find "h2" "paywall-title" doc).
Proof.
  intros [p [Hin [Hname Hclass]]].
  destruct (soup_find "h2" "paywall-title" doc) eqn:E; [by eauto |].
  exfalso. pose proof (proj1 (soup_find_None _ _ _) E p Hin) as Hp.
  rewrite Hname in Hp. simpl in Hp. unfold bs4_class_match in Hp.
  apply orb_false_iff in Hp as [Hp _].
  apply existsb_eqb_elem_of in Hclass. by rewrite Hclass in Hp.
Qed.

(** C7. When the page the plain HTTP scraper receives has the premium
    marker, [get_url_soup] returns [None], and the loop body writes no file
    and collects no record for that URL. *)
Theorem premium_page_not_saved (W : World) (self : scraper) (url : string)
    (page : http_response) (fs : gmap string string) :
  requests_get W url = Ok page ->
  has_paywall_marker (BeautifulSoup W (content page)) ->
  get_url_soup (PageFetcher := SubstackScraper W) url = Ok None
  /\ (scrape_one W (fetcher := SubstackScraper W) self url fs).1 = (fs, []).
Proof.
  intros Hget Hmark.
  assert (Hnone : get_url_soup (PageFetcher := SubstackScraper W) url = Ok None).
  { unfold get_url_soup, SubstackScraper. rewrite Hget.
    by destruct (paywall_marker_found _ Hmark) as [e ->]. }
  split; [done |]. unfold scrape_one.
  destruct (fs !! md_filepath self url); [done |]. by rewrite Hnone.
Qed.

Lemma premium_page_not_saved_witness :
  get_url_soup (PageFetcher := SubstackScraper Fixture.site) "https://pub.example/p/paid"
    = Ok None
  /\ (scrape_one Fixture.site (fetcher := SubstackScraper Fixture.site) (Fixture.pub [])
        "https://pub.example/p/paid" ∅).1 = (∅, []).
Proof.
  apply (premium_page_not_saved Fixture.site (Fixture.pub []) "https://pub.example/p/paid"
           (Response true "paid") ∅).
  - reflexivity.
  - exists ([], Tag "h2" ["paywall-title"] [Text "This post is for paid subscribers"]).
    split; [|split].
    + simpl. right. left.
    + reflexivity.
    + simpl. left.
Defined.

(** ** URL discovery *)

Example discovery_from_sitemap :
  get_all_post_urls Fixture.site "https://pub.example/"
  = Ok ["https://pub.example/p/a"].
Proof. reflexivity. Qed.

Example discovery_sitemap_status_500 :
  get_all_post_urls (Fixture.world (Ok (Response false "Internal Server Error")))
    "https://pub.example/"
  = Ok ["https://pub.example/p/a"; "https://pub.example/p/b"].
Proof. reflexivity. Qed.

Lemma as_strings_Some (us : list string) : as_strings (Some <$> us) = Ok us.
Proof.
  unfold as_strings. replace (mapM id (Some <$> us)) with (Some us); [done |].
  symmetry. apply mapM_Some. induction us; constructor; auto.
Qed.

Lemma get_all_post_urls_fallback W base :
  fetch_urls_from_sitemap W base = Ok [] ->
  get_all_post_urls W base
  = (fun us => filter_urls us KEYWORDS) <$> fetch_urls_from_feed W base.
Proof.
  intros Hs. unfold get_all_post_urls. rewrite Hs. simpl.
  destruct (fetch_urls_from_feed W base) as [us|e]; simpl; [|done].
  by rewrite as_strings_Some.
Qed.

Lemma sitemap_not_ok W base r :
  requests_get W (base +:+ "sitemap.xml") = Ok r -> ok r = false ->
  fetch_urls_from_sitemap W base = Ok [].
Proof. intros Hr Hok. unfold fetch_urls_from_sitemap. rewrite Hr. simpl. by rewrite Hok. Qed.

(** C2 (as amended). A sitemap answered with a non-success status, or one
    without [loc] entries, makes discovery take the feed; when both sources
    are empty the result is the empty list; a transport error or malformed
    XML, from the sitemap or from the feed once it is taken, leaves
    discovery as the exception it raised. *)
Theorem discovery_fallback_and_errors (W : World) (base : string) :
  (forall r, requests_get W (base +:+ "sitemap.xml") = Ok r -> ok r = false ->
     get_all_post_urls W base
     = (fun us => filter_urls us KEYWORDS) <$> fetch_urls_from_feed W base)
  /\ (fetch_urls_from_sitemap W base = Ok [] ->
      get_all_post_urls W base
      = (fun us => filter_urls us KEYWORDS) <$> fetch_urls_from_feed W base)
  /\ (fetch_urls_from_sitemap W base = Ok [] -> fetch_urls_from_feed W base = Ok [] ->
      get_all_post_urls W base = Ok [])
  /\ (forall e, requests_get W (base +:+ "sitemap.xml") = Raise e ->
      get_all_post_urls W base = Raise e)
  /\ (forall r e, requests_get W (base +:+ "sitemap.xml") = Ok r -> ok r = true ->
      ET_fromstring W (content r) = Raise e ->
      get_all_post_urls W base = Raise e)
  /\ (forall e, fetch_urls_from_sitemap W base = Ok [] ->
      fetch_urls_from_feed W base = Raise e ->
      get_all_post_urls W base = Raise e).
Proof.
  repeat split.
  - intros r Hr Hok. apply get_all_post_urls_fallback. by eapply sitemap_not_ok.
  - apply get_all_post_urls_fallback.
  - intros Hs Hf. rewrite get_all_post_urls_fallback, Hf by done. done.
  - intros e He. unfold get_all_post_urls, fetch_urls_from_sitemap. by rewrite He.
  - intros r e Hr Hok He. unfold get_all_post_urls, fetch_urls_from_sitemap.
    rewrite Hr. simpl. rewrite Hok. simpl. by rewrite He.
  - intros e Hs Hf. rewrite get_all_post_urls_fallback, Hf by done. done.
Qed.

(** C2, as stated, fails: when the sitemap request fails in transport, or
    its body is not XML, the feed, which lists two posts, is not consulted
    and discovery raises. *)
Lemma discovery_errors_counterexample :
  fetch_urls_from_feed (Fixture.world (Raise ConnectionError)) "https://pub.example/"
    = Ok ["https://pub.example/p/a"; "https://pub.example/p/b"]
  /\ get_all_post_urls (Fixture.world (Raise ConnectionError)) "https://pub.example/"
      
     = Raise ConnectionError
  /\ get_all_post_urls (Fixture.world (Ok (Response true "<urlset"))) "https://pub.example/"
      
     = Raise ParseError.
Proof. repeat split. Qed.

(** ** Pipeline orchestrator: the post-count limit *)

Section Limit.
Context (W : World) {fetcher : PageFetcher} (self : scraper).

Lemma counted_app l1 l2 : counted (l1 ++ l2) = counted l1 + counted l2.
Proof. unfold counted. by rewrite List.filter_app, length_app. Qed.

(** What the loop adds to the log, from any state it can be in. *)
Lemma scrape_loop_attempts n urls st :
  (0 <= count st)%Z ->
  exists log,
    attempts (scrape_loop W self n urls st) = attempts st ++ log
    /\ fst <$> log `prefix_of` urls
    /\ count (scrape_loop W self n urls st) = (count st + Z.of_nat (counted log))%Z
    /\ ((n <= 0)%Z -> fst <$> log = urls)
    /\ ((count st < n)%Z ->
        (count (scrape_loop W self n urls st) = n
         /\ exists log' u o, log = log' ++ [(u, o)] /\ reaches_count o = true)
        \/ ((count (scrape_loop W self n urls st) < n)%Z /\ fst <$> log = urls)).
Proof.
  revert st. induction urls as [|url urls IH]; intros st Hc.
  - exists []. unfold counted. simpl. rewrite app_nil_r.
    repeat split; auto; lia.
  - simpl. destruct (scrape_one W self url (ls_files st)) as [[fs new] o] eqn:Eo.
    destruct (reaches_count o) eqn:Er; cbn [count attempts ls_files essays_data total].
    + destruct (negb (n =? 0)%Z && (count st + 1 =? n)%Z) eqn:Eb.
      * apply andb_true_iff in Eb as [Hn0 Hn]. apply Z.eqb_eq in Hn.
        apply negb_true_iff, Z.eqb_neq in Hn0.
        assert (Hk : counted [(url, o)] = 1) by (unfold counted; simpl; by rewrite Er).
        exists [(url, o)]. cbn [count attempts]. rewrite Hk.
        split; [done |]. split; [apply prefix_cons, prefix_nil |].
        split; [done |]. split; [lia |].
        intros _. left. split; [done |]. by exists [], url, o.
      * set (st' := {| ls_files := fs; essays_data := essays_data st ++ new;
                       count := count st + 1; total := total st;
                       attempts := attempts st ++ [(url, o)] |}).
        destruct (IH st') as (log & Ha & Hp & Hcnt & Hall & Hlim); [simpl; lia |].
        assert (Hk : counted ((url, o) :: log) = S (counted log))
          by (unfold counted; simpl; by rewrite Er).
        exists ((url, o) :: log). rewrite fmap_cons, Hk, Hcnt, Ha.
        cbn [count attempts st' fst]. rewrite <- app_assoc.
        split; [done |]. split; [by apply prefix_cons |].
        split; [lia |]. split; [intros Hle; by rewrite Hall |].
        intros Hlt. apply andb_false_iff in Eb.
        assert (Hlt' : (count st' < n)%Z).
        { simpl. destruct Eb as [Eb | Eb].
          - apply negb_false_iff, Z.eqb_eq in Eb. lia.
          - apply Z.eqb_neq in Eb. lia. }
        rewrite Hcnt in Hlim. cbn [count st'] in Hlim.
        destruct (Hlim Hlt') as [[Hn (log' & u & o' & -> & Ho')] | [Hn Hu]].
        -- left. split; [done |]. by exists ((url, o) :: log'), u, o'.
        -- right. split; [done | by rewrite Hu].
    + set (st' := {| ls_files := fs; essays_data := essays_data st ++ new;
                     count := count st;
                     total := if (n =? 0)%Z then total st - 1 else total st;
                     attempts := attempts st ++ [(url, o)] |}).
      destruct (IH st') as (log & Ha & Hp & Hcnt & Hall & Hlim); [done |].
      assert (Hk : counted ((url, o) :: log) = counted log)
        by (unfold counted; simpl; by rewrite Er).
      exists ((url, o) :: log). rewrite fmap_cons, Hk, Hcnt, Ha.
      cbn [count attempts st' fst]. rewrite <- app_assoc.
      split; [done |]. split; [by apply prefix_cons |].
      split; [done |]. split; [intros Hle; by rewrite Hall |].
      intros Hlt. rewrite Hcnt in Hlim. cbn [count st'] in Hlim.
      destruct (Hlim Hlt) as [[Hn (log' & u & o' & -> & Ho')] | [Hn Hu]].
      * left. split; [done |]. by exists ((url, o) :: log'), u, o'.
      * right. split; [done | by rewrite Hu].
Qed.

Lemma scrape_one_outcome url fs :
  match (scrape_one W self url fs).2 with
  | AlreadyExists => is_Some (fs !! md_filepath self url)
  | Errored => fs !! md_filepath self url = None /\ exists e, get_url_soup url = Raise e
  | NoSoup => fs !! md_filepath self url = None /\ get_url_soup url = Ok None
  | NoPostData =>
      fs !! md_filepath self url = None
      /\ exists doc, get_url_soup url = Ok (Some doc) /\ extract_post_data W doc = None
  | Saved =>
      fs !! md_filepath self url = None
      /\ exists doc, get_url_soup url = Ok (Some doc) /\ is_Some (extract_post_data W doc)
  end.
Proof.
  unfold scrape_one. destruct (fs !! md_filepath self url) eqn:E; simpl; [by eauto |].
  destruct (get_url_soup url) as [[doc|]|e]; simpl; [|by auto|by eauto].
  destruct (extract_post_data W doc) as [[[[[t s] lc] d] md]|] eqn:Ex; simpl.
  - split; [done |]. exists doc. rewrite Ex. by eauto.
  - split; [done |]. by exists doc.
Qed.

(** C1 (as amended). The loop takes the URLs in order.  With a positive
    limit it stops right after the attempt that brings the number of
    counted attempts to the limit, or takes every URL when fewer are
    counted; an attempt is counted when the Markdown file exists already,
    when the post is saved and when an exception is caught, and is not
    counted when the fetch or the extraction returns nothing.  With the
    limit 0 every URL is taken. *)
Theorem scrape_posts_limit (n : Z) (fs : gmap string string) :
  let st := scrape_loop W self n (post_urls self) (scrape_init self n fs) in
  fst <$> attempts st `prefix_of` post_urls self
  /\ count st = Z.of_nat (counted (attempts st))
  /\ ((n <= 0)%Z -> fst <$> attempts st = post_urls self)
  /\ ((0 < n)%Z ->
      (Z.of_nat (counted (attempts st)) = n
       /\ exists log u o, attempts st = log ++ [(u, o)] /\ reaches_count o = true)
      \/ ((Z.of_nat (counted (attempts st)) < n)%Z
          /\ fst <$> attempts st = post_urls self)).
Proof.
  intros st.
  destruct (scrape_loop_attempts n (post_urls self) (scrape_init self n fs))
    as (log & Ha & Hp & Hcnt & Hall & Hlim); [done |].
  fold st in Ha, Hcnt, Hlim. simpl in Ha, Hcnt, Hlim. rewrite Ha.
  rewrite Z.add_0_l in Hcnt. rewrite Hcnt in *. auto.
Qed.

End Limit.

Example limit_two_first_archived :
  let urls := ["https://pub.example/p/a"; "https://pub.example/p/b";
               "https://pub.example/p/c"; "https://pub.example/p/d";
               "https://pub.example/p/e"] in
  attempts (scrape_loop Fixture.site (fetcher := SubstackScraper Fixture.site)
              (Fixture.pub urls) 2 urls
              (scrape_init (Fixture.pub urls) 2 {["substack_md_files/pub/a.md" := "# Hello"]}))
  = [("https://pub.example/p/a", AlreadyExists); ("https://pub.example/p/b", Saved)].
Proof. vm_compute. reflexivity. Qed.

(** C1, as stated, fails: with a limit of one post and the first URL
    behind the paywall, the loop does not stop after one attempt, it goes
    on to the second URL. *)
Lemma limit_skips_absent_counterexample :
  let urls := ["https://pub.example/p/paid"; "https://pub.example/p/a";
               "https://pub.example/p/b"] in
  attempts (scrape_loop Fixture.site (fetcher := SubstackScraper Fixture.site)
              (Fixture.pub urls) 1 urls (scrape_init (Fixture.pub urls) 1 ∅))
  = [("https://pub.example/p/paid", NoSoup); ("https://pub.example/p/a", Saved)].
Proof. vm_compute. reflexivity. Qed.

(** ** Archive store and re-runs *)

Lemma save_to_file_existing filepath content (fs : gmap string string) :
  is_Some (fs !! filepath) -> save_to_file filepath content fs = fs.
Proof. intros [old H]. unfold save_to_file. by rewrite H. Qed.

Lemma save_to_file_dom filepath content (fs : gmap string string) :
  dom (save_to_file filepath content fs) = {[filepath]} ∪ dom fs.
Proof.
  unfold save_to_file. destruct (fs !! filepath) eqn:E.
  - apply elem_of_dom_2 in E. apply set_eq. intros x.
    rewrite elem_of_union, elem_of_singleton. intuition (subst; auto).
  - by rewrite dom_insert_L.
Qed.

Section Rerun.
Context (W : World) {fetcher : PageFetcher} (self : scraper).

(** One pass of the loop body only adds paths; a saved post has its
    Markdown path on disk afterwards, any other outcome leaves the files
    alone and collects nothing. *)
Lemma scrape_one_effect url (fs : gmap string string) :
  let '(fs', new, o) := scrape_one W self url fs in
  dom fs ⊆ dom fs'
  /\ (o = Saved -> md_filepath self url ∈ dom fs')
  /\ (o <> Saved -> fs' = fs /\ new = []).
Proof.
  unfold scrape_one. destruct (fs !! md_filepath self url) eqn:E; [done |].
  destruct (get_url_soup url) as [[doc|]|e]; [|done|done].
  destruct (extract_post_data W doc) as [[[[[t s] lc] d] md]|]; [|done].
  unfold save_to_html_file. rewrite dom_insert_L, save_to_file_dom.
  split; [set_solver |]. split; [set_solver | done].
Qed.

(** On a disk that has every path the first pass left, the body changes
    nothing, and it reaches the counter whenever the first pass did. *)
Lemma scrape_one_again url (fs1 fs1' F2 : gmap string string) new1 o1 :
  scrape_one W self url fs1 = (fs1', new1, o1) ->
  dom fs1' ⊆ dom F2 ->
  exists o2, scrape_one W self url F2 = (F2, [], o2)
             /\ (reaches_count o1 = true -> reaches_count o2 = true).
Proof.
  intros H1 Hdom. pose proof (scrape_one_effect url fs1) as He.
  rewrite H1 in He. destruct He as (Hmono & Hsaved & _).
  unfold scrape_one in *.
  destruct (F2 !! md_filepath self url) eqn:E2; [by exists AlreadyExists |].
  assert (Hnot : md_filepath self url ∉ dom fs1').
  { intros Hin. apply Hdom, elem_of_dom in Hin as [x Hx]. congruence. }
  destruct (fs1 !! md_filepath self url) eqn:E1.
  { exfalso. apply Hnot, Hmono, elem_of_dom. eauto. }
  destruct (get_url_soup url) as [[doc|]|e].
  - destruct (extract_post_data W doc) as [[[[[t s] lc] d] md]|].
    + injection H1 as _ _ <-. exfalso. by apply Hnot, Hsaved.
    + injection H1 as _ _ <-. by exists NoPostData.
  - injection H1 as _ _ <-. by exists NoSoup.
  - injection H1 as _ _ <-. by exists Errored.
Qed.

Lemma scrape_loop_dom n urls st :
  dom (ls_files st) ⊆ dom (ls_files (scrape_loop W self n urls st)).
Proof.
  revert st. induction urls as [|url urls IH]; intros st; [done |].
  simpl. pose proof (scrape_one_effect url (ls_files st)) as He.
  destruct (scrape_one W self url (ls_files st)) as [[fs new] o].
  destruct He as (Hmono & _).
  destruct (reaches_count o); cbn [count ls_files].
  - destruct (negb _ && _); [done |].
    etrans; [exact Hmono | apply (IH (LoopState fs _ _ _ _))].
  - etrans; [exact Hmono | apply (IH (LoopState fs _ _ _ _))].
Qed.

(** The second run: started on a disk holding every path the first run
    ends with, with a counter not behind the first run's, the loop writes
    no file and collects no record. *)
Lemma scrape_loop_again n urls st1 st2 :
  dom (ls_files (scrape_loop W self n urls st1)) ⊆ dom (ls_files st2) ->
  (0 <= count st1 <= count st2)%Z ->
  ((0 < n)%Z -> (count st2 < n)%Z) ->
  ls_files (scrape_loop W self n urls st2) = ls_files st2
  /\ essays_data (scrape_loop W self n urls st2) = essays_data st2.
Proof.
  revert st1 st2. induction urls as [|url urls IH]; intros st1 st2 Hdom Hc Hn; [done |].
  simpl in Hdom |- *.
  pose proof (scrape_one_effect url (ls_files st1)) as He.
  destruct (scrape_one W self url (ls_files st1)) as [[fs1 new1] o1] eqn:E1.
  destruct He as (Hmono & _).
  assert (Hfs1 : dom fs1 ⊆ dom (ls_files st2)).
  { destruct (reaches_count o1); cbn [count ls_files] in Hdom.
    - destruct (negb _ && _); [done |].
      etrans; [|exact Hdom]. apply (scrape_loop_dom n urls (LoopState fs1 _ _ _ _)).
    - etrans; [|exact Hdom]. apply (scrape_loop_dom n urls (LoopState fs1 _ _ _ _)). }
  destruct (scrape_one_again url _ _ _ _ _ E1 Hfs1) as (o2 & E2 & Hcount).
  rewrite E2, app_nil_r. cbn [count ls_files essays_data total attempts].
  destruct (reaches_count o2) eqn:Er2.
  - destruct (negb (n =? 0)%Z && (count st2 + 1 =? n)%Z) eqn:Eb2; [done |].
    assert (Hn2 : (0 < n)%Z -> (count st2 + 1 < n)%Z).
    { intros Hpos. specialize (Hn Hpos). apply andb_false_iff in Eb2 as [Eb | Eb].
      - apply negb_false_iff, Z.eqb_eq in Eb. lia.
      - apply Z.eqb_neq in Eb. lia. }
    destruct (reaches_count o1) eqn:Er1; cbn [count ls_files] in Hdom.
    + destruct (negb (n =? 0)%Z && (count st1 + 1 =? n)%Z) eqn:Eb1.
      * exfalso. apply andb_true_iff in Eb1 as [Hn0 Hn1].
        apply Z.eqb_eq in Hn1. lia.
      * eapply (IH _ (LoopState _ _ _ _ _)) in Hdom as [Hf Hes];
          [split; [exact Hf | exact Hes] | simpl; lia | done].
    + eapply (IH _ (LoopState _ _ _ _ _)) in Hdom as [Hf Hes];
        [split; [exact Hf | exact Hes] | simpl; lia | done].
  - destruct (reaches_count o1) eqn:Er1; [by specialize (Hcount eq_refl) |].
    eapply (IH _ (LoopState _ _ _ _ _)) in Hdom as [Hf Hes];
      [split; [exact Hf | exact Hes] | simpl; lia | done].
Qed.

(** C3. Running the pipeline again on the disk a run has left, with the
    same URLs, the same answers from the network and the same limit,
    leaves every file and the ledger as they are; and [save_to_file] on a
    path that exists changes nothing. *)
Theorem rerun_changes_nothing (n : Z) (d : disk) :
  scrape_posts W self n (scrape_posts W self n d) = scrape_posts W self n d
  /\ (forall filepath content (fs : gmap string string),
        is_Some (fs !! filepath) -> save_to_file filepath content fs = fs).
Proof.
  split; [|intros; by apply save_to_file_existing].
  set (st1 := scrape_loop W self n (post_urls self) (scrape_init self n (files d))).
  set (author := os_path_join BASE_HTML_DIR (writer_name self +:+ ".html")).
  assert (H1 : exists l1,
             scrape_posts W self n d
             = {| files := <[author := author_page W (writer_name self) l1]> (ls_files st1);
                  ledger := Some l1 |}).
  { unfold scrape_posts, generate_html_file. fold st1. cbn [ledger files].
    destruct (ledger d); simpl; eauto. }
  destruct H1 as [l1 H1]. rewrite H1.
  unfold scrape_posts. cbn [ledger files].
  destruct (scrape_loop_again n (post_urls self) (scrape_init self n (files d))
              (scrape_init self n (<[author := author_page W (writer_name self) l1]>
                                    (ls_files st1))))
    as [Hf Hes].
  { fold st1. simpl. rewrite dom_insert_L. apply union_subseteq_r. }
  { simpl. lia. }
  { simpl. lia. }
  rewrite Hf, Hes. simpl. rewrite app_nil_r.
  unfold generate_html_file. cbn [ledger files]. fold author.
  by rewrite insert_insert_eq.
Qed.

End Rerun.

Example first_run_then_second_run :
  let self := Fixture.pub ["https://pub.example/p/paid"; "https://pub.example/p/a";
                           "https://pub.example/p/a"; "https://pub.example/p/b"] in
  let run := scrape_posts Fixture.site (fetcher := SubstackScraper Fixture.site) self 0 in
  let d1 := run {| files := ∅; ledger := None |} in
  size (files d1) = 5
  /\ is_Some (files d1 !! "substack_md_files/pub/a.md")
  /\ is_Some (files d1 !! "substack_html_pages/pub/b.html")
  /\ files d1 !! "substack_html_pages/pub.html" = Some "pub"
  /\ List.map title (default [] (ledger d1)) = ["Hello"; "World"]
  /\ run d1 = d1.
Proof.
  repeat split; vm_compute; by eauto.
Qed.


(** * Further properties of the code *)

(** ** Splitting and joining *)

Lemma split_app_sep c p q :
  Str.split c (p +:+ String c q) = Str.split c p ++ Str.split c q.
Proof.
  induction p as [|a p IH]; simpl.
  - by rewrite Ascii.eqb_refl.
  - destruct (Ascii.eqb a c); [by rewrite IH |].
    rewrite IH. by destruct (split_nonempty c p) as [h [t ->]].
Qed.

Lemma split_free c s : free_of c s = true -> Str.split c s = [s].
Proof.
  unfold free_of. induction s as [|a s IH]; simpl; [done |].
  rewrite andb_true_iff, negb_true_iff. intros [-> Hs]. by rewrite IH.
Qed.

Lemma split_singleton c s p : Str.split c s = [p] -> s = p.
Proof.
  revert p. induction s as [|a s IH]; intros p; simpl.
  - by intros [= <-].
  - destruct (Ascii.eqb a c).
    + destruct (split_nonempty c s) as [h [t ->]]. discriminate.
    + destruct (split_nonempty c s) as [h [t E]]. rewrite E.
      intros [= <- ->]. by rewrite (IH h).
Qed.

Lemma split_parts_free c s : Forall (fun p => free_of c p = true) (Str.split c s).
Proof.
  induction s as [|a s IH]; simpl; [by constructor |].
  destruct (Ascii.eqb a c) eqn:E; [by constructor |].
  destruct (Str.split c s) as [|h t]; inversion IH; subst; constructor; auto.
  - unfold free_of. simpl. by rewrite E.
  - unfold free_of in *. simpl. by rewrite E.
Qed.

Lemma last_split_segment c p seg :
  free_of c seg = true ->
  List.last (Str.split c (p +:+ String c seg)) EmptyString = seg.
Proof.
  intros H. rewrite split_app_sep, (split_free _ _ H). apply last_last.
Qed.

Lemma free_of_app c s1 s2 :
  free_of c (s1 +:+ s2) = free_of c s1 && free_of c s2.
Proof.
  unfold free_of. induction s1 as [|a s1 IH]; simpl; [done |].
  by rewrite IH, andb_assoc.
Qed.

Lemma last_in_or_default {A} (l : list A) (d : A) : List.last l d = d \/ List.last l d ∈ l.
Proof.
  induction l as [|x l IH]; [by left |].
  destruct l as [|y l]; [right; left |].
  destruct IH as [IH | IH].
  - left. exact IH.
  - right. right. exact IH.
Qed.

(** ** Writer name: when it fails *)


(** ** File names *)

(** X2. The file name is what follows the last slash of the URL, then the
    extension, with a dot supplied when the extension has none; a URL
    without slash is its own last segment. *)
Theorem get_filename_from_url_segment (pre seg ext : string) :
  free_of "/" seg = true ->
  Str.startswith "." ext = false ->
  get_filename_from_url (pre +:+ "/" +:+ seg) ("." +:+ ext) = seg +:+ "." +:+ ext
  /\ get_filename_from_url (pre +:+ "/" +:+ seg) ext = seg +:+ "." +:+ ext
  /\ get_filename_from_url seg ext = seg +:+ "." +:+ ext.
Proof.
  intros Hseg Hext. unfold get_filename_from_url. rewrite Hext.
  change (Str.startswith "." ("." +:+ ext)) with true.
  change (pre +:+ "/" +:+ seg) with (pre +:+ String "/" seg).
  rewrite (last_split_segment _ _ _ Hseg), (split_free _ _ Hseg). done.
Qed.

Lemma get_filename_from_url_segment_witness :
  get_filename_from_url "https://pub.example/p/hello-world" ".md" = "hello-world.md"
  /\ get_filename_from_url "https://pub.example/p/hello-world" "md" = "hello-world.md"
  /\ get_filename_from_url "hello-world" "md" = "hello-world.md".
Proof.
  exact (get_filename_from_url_segment "https://pub.example/p" "hello-world" "md"
           eq_refl eq_refl).
Defined.

(** X3. For an extension without slash the file name has no slash in it:
    it names a file directly in the save directory, whatever the URL. *)
Theorem get_filename_from_url_no_slash (url ext : string) :
  free_of "/" ext = true -> free_of "/" (get_filename_from_url url ext) = true.
Proof.
  intros Hext. unfold get_filename_from_url. rewrite free_of_app.
  apply andb_true_iff. split.
  - destruct (last_in_or_default (Str.split "/" url) EmptyString) as [-> | Hin]; [done |].
    pose proof (split_parts_free "/" url) as Hall.
    rewrite Forall_forall in Hall. by apply Hall.
  - destruct (Str.startswith "." ext); [done |]. by rewrite free_of_app, Hext.
Qed.

Lemma get_filename_from_url_no_slash_witness :
  free_of "/" (get_filename_from_url "https://pub.example/p/a/../../etc" ".md") = true.
Proof. exact (get_filename_from_url_no_slash "https://pub.example/p/a/../../etc" ".md" eq_refl). Defined.

(** ** Paths *)

Lemma last_char_app s1 s2 : s2 <> EmptyString -> last_char (s1 +:+ s2) = last_char s2.
Proof.
  intros H. induction s1 as [|a s1 IH]; simpl; [done |].
  rewrite IH. destruct (s1 +:+ s2) eqn:E; [|done].
  destruct s1; simpl in E; [done | discriminate].
Qed.

Lemma last_char_join a b :
  b <> EmptyString -> last_char (os_path_join a b) = last_char b.
Proof.
  intros H. unfold os_path_join.
  destruct (Str.startswith "/" b); [done |].
  destruct (negb (Str.truthy a) || ends_with_slash a).
  - by apply last_char_app.
  - rewrite last_char_app; [by apply last_char_app | by destruct b].
Qed.

Lemma last_char_filename url c ext :
  last_char (get_filename_from_url url (String "." (ext +:+ String c EmptyString))) = Some c.
Proof.
  unfold get_filename_from_url.
  change (Str.startswith "." (String "." (ext +:+ String c EmptyString))) with true.
  cbv iota. rewrite last_char_app by done.
  change (String "." (ext +:+ String c EmptyString))
    with (String "." ext +:+ String c EmptyString).
  by rewrite last_char_app.
Qed.

Lemma filename_nonempty url ext : get_filename_from_url url (String "." ext) <> EmptyString.
Proof.
  unfold get_filename_from_url. change (Str.startswith "." (String "." ext)) with true.
  cbv iota. by destruct (List.last _ _).
Qed.

Lemma md_filepath_last self url : last_char (md_filepath self url) = Some "d"%char.
Proof.
  unfold md_filepath. rewrite last_char_join by apply filename_nonempty.
  apply (last_char_filename url "d" "m").
Qed.

Lemma html_filepath_last self url : last_char (html_filepath self url) = Some "l"%char.
Proof.
  unfold html_filepath. rewrite last_char_join by apply filename_nonempty.
  apply (last_char_filename url "l" "htm").
Qed.

Lemma author_path_last author :
  last_char (os_path_join BASE_HTML_DIR (author +:+ ".html")) = Some "l"%char.
Proof.
  rewrite last_char_join by (by destruct author).
  by rewrite last_char_app.
Qed.

(** X4. The Markdown path of a post is never the HTML path of a post, nor
    the path of the author page, whatever the two save directories are:
    the HTML writes cannot hit a Markdown file. *)
Theorem md_path_is_no_html_path (self : scraper) (url url' author : string) :
  md_filepath self url <> html_filepath self url'
  /\ md_filepath self url <> os_path_join BASE_HTML_DIR (author +:+ ".html").
Proof.
  split; intros E; apply (f_equal last_char) in E.
  - rewrite md_filepath_last, html_filepath_last in E. discriminate.
  - rewrite md_filepath_last, author_path_last in E. discriminate.
Qed.

(** ** Archive store *)

(** X5. [save_to_file] never overwrites: afterwards the path holds what it
    held before, or the new content when it held nothing; no other path
    changes; and of two writes to one path the first wins. *)
Theorem save_to_file_first_write_wins (filepath content content' : string)
    (fs : gmap string string) :
  save_to_file filepath content fs !! filepath = Some (default content (fs !! filepath))
  /\ (forall other, other <> filepath ->
        save_to_file filepath content fs !! other = fs !! other)
  /\ save_to_file filepath content' (save_to_file filepath content fs)
     = save_to_file filepath content fs.
Proof.
  unfold save_to_file. destruct (fs !! filepath) eqn:E; simpl.
  - rewrite E. by repeat split.
  - rewrite lookup_insert_eq. repeat split.
    intros other Hne. by rewrite lookup_insert_ne.
Qed.

(** ** Ledger merge, continued *)

Lemma merge_elem_of (existing batch : list essay) r :
  r ∈ existing ++ filter (fun data => data ∉ existing) batch <-> r ∈ existing \/ r ∈ batch.
Proof.
  rewrite elem_of_app, list_elem_of_filter.
  destruct (decide (r ∈ existing)); intuition.
Qed.

(** X6. After a merge the ledger holds exactly the records that were in
    the ledger file or in the batch. *)
Theorem ledger_merge_membership (essays_data : list essay) (ledger : option (list essay))
    (r : essay) :
  exists merged,
    save_essays_data_to_json essays_data ledger = Some merged
    /\ (r ∈ merged <-> r ∈ default [] ledger \/ r ∈ essays_data).
Proof.
  destruct ledger as [existing|]; simpl; eexists; (split; [done |]).
  - apply merge_elem_of.
  - rewrite elem_of_nil. intuition.
Qed.

Lemma filter_all_out {A} (P : A -> Prop) `{!forall x, Decision (P x)} (l : list A) :
  (forall x, x ∈ l -> ~ P x) -> filter P l = [].
Proof.
  induction l as [|x l IH]; intros Hout; [done |].
  rewrite filter_cons_False by (apply Hout; left). apply IH.
  intros y Hy. apply Hout. by right.
Qed.

(** X7. Merging the same batch a second time changes nothing: whatever
    the ledger was, after one merge every record of the batch is in it. *)
Theorem ledger_merge_idempotent (essays_data : list essay) (ledger : option (list essay)) :
  save_essays_data_to_json essays_data (save_essays_data_to_json essays_data ledger)
  = save_essays_data_to_json essays_data ledger.
Proof.
  destruct ledger as [existing|]; simpl; f_equal.
  - rewrite <- (app_nil_r (existing ++ _)) at 2. f_equal.
    apply filter_all_out. intros x Hx Hnot. apply Hnot, merge_elem_of. by right.
  - rewrite <- (app_nil_r essays_data) at 3. f_equal.
    apply filter_all_out. intros x Hx Hnot. done.
Qed.

Lemma merge_NoDup (existing batch : list essay) :
  NoDup existing -> NoDup batch ->
  NoDup (existing ++ filter (fun data => data ∉ existing) batch).
Proof.
  intros He Hb. apply NoDup_app. split; [done |]. split.
  - intros x Hx Hf. apply list_elem_of_filter in Hf as [Hnot _]. done.
  - by apply NoDup_filter.
Qed.

(** X8. A ledger without duplicates merged with a batch without duplicates
    is a ledger without duplicates. *)
Theorem ledger_merge_NoDup (essays_data : list essay) (ledger : option (list essay)) :
  NoDup (default [] ledger) -> NoDup essays_data ->
  exists merged,
    save_essays_data_to_json essays_data ledger = Some merged /\ NoDup merged.
Proof.
  intros Hl Hb. destruct ledger as [existing|]; simpl in *; eexists; (split; [done |]).
  - by apply merge_NoDup.
  - done.
Qed.

Lemma ledger_merge_NoDup_witness :
  exists merged,
    save_essays_data_to_json
      [Essay "Hello" "" "42" "Jan 1" "a.md" "a.html"]
      (Some [Essay "Hello" "" "42" "Jan 1" "a.md" "a.html";
             Essay "World" "" "0" "Jan 2" "b.md" "b.html"]) = Some merged
    /\ NoDup merged.
Proof.
  apply (ledger_merge_NoDup
           [Essay "Hello" "" "42" "Jan 1" "a.md" "a.html"]
           (Some [Essay "Hello" "" "42" "Jan 1" "a.md" "a.html";
                  Essay "World" "" "0" "Jan 2" "b.md" "b.html"])).
  - simpl. apply NoDup_cons. split.
    + intros H. apply list_elem_of_singleton in H. discriminate.
    + apply NoDup_singleton.
  - apply NoDup_singleton.
Defined.

(** ** The loop and its records *)

Section Run.
Context (W : World) {fetcher : PageFetcher} (self : scraper).

Lemma saved_app l1 l2 : saved (l1 ++ l2) = saved l1 + saved l2.
Proof. unfold saved. by rewrite List.filter_app, length_app. Qed.

(** What one pass of the loop body does to the disk, by outcome. *)
Lemma scrape_one_inv url (fs fs' : gmap string string) new o :
  scrape_one W self url fs = (fs', new, o) ->
  (o = Saved /\ fs !! md_filepath self url = None
   /\ (exists md, fs' = <[html_filepath self url := html_document W (html_filepath self url)
                                                      (md_to_html W md)]>
                          (<[md_filepath self url := md]> fs))
   /\ exists t s lc d,
        new = [Essay t s lc d (md_filepath self url) (html_filepath self url)])
  \/ (o <> Saved /\ fs' = fs /\ new = []).
Proof.
  unfold scrape_one. destruct (fs !! md_filepath self url) eqn:E.
  { intros [= <- <- <-]. by right. }
  destruct (get_url_soup url) as [[doc|]|e].
  - destruct (extract_post_data W doc) as [[[[[t s] lc] d] md]|].
    + intros [= <- <- <-]. left. split; [done |]. split; [done |]. split.
      * exists md. unfold save_to_html_file, save_to_file. by rewrite E.
      * by exists t, s, lc, d.
    + intros [= <- <- <-]. by right.
  - intros [= <- <- <-]. by right.
  - intros [= <- <- <-]. by right.
Qed.

Lemma records_sound_step F0 urls0 url st fs new o c t :
  url ∈ urls0 ->
  records_sound self F0 urls0 st ->
  scrape_one W self url (ls_files st) = (fs, new, o) ->
  records_sound self F0 urls0
    {| ls_files := fs; essays_data := essays_data st ++ new; count := c; total := t;
       attempts := attempts st ++ [(url, o)] |}.
Proof.
  intros Hu (Hdom & Hrec & Hnd & Hlen) Hone. unfold records_sound. simpl.
  destruct (scrape_one_inv _ _ _ _ _ Hone)
    as [(-> & Hnone & [md ->] & (ti & su & lc & d & ->)) | (Hns & -> & ->)].
  - assert (Hfresh : md_filepath self url ∉ dom (ls_files st)) by by apply not_elem_of_dom.
    rewrite !dom_insert_L. split; [|split; [|split]].
    + intros x Hx. apply elem_of_union_r, elem_of_union_r. by apply Hdom.
    + intros r Hr. apply elem_of_app in Hr as [Hr | Hr].
      * destruct (Hrec r Hr) as (H1 & H2 & H3 & H4).
        split; [by apply elem_of_union_r, elem_of_union_r |].
        split; [by apply elem_of_union_r, elem_of_union_r | done].
      * apply list_elem_of_singleton in Hr. subst r. cbn [file_link html_link].
        split; [apply elem_of_union_r, elem_of_union_l; by apply elem_of_singleton |].
        split; [apply elem_of_union_l; by apply elem_of_singleton |].
        split; [intros Hin; by apply Hfresh, Hdom | by exists url].
    + rewrite fmap_app. apply NoDup_app. split; [done |]. split; [|apply NoDup_singleton].
      intros x Hx Hx'. apply list_elem_of_singleton in Hx'. cbn [file_link] in Hx'.
      apply list_elem_of_fmap in Hx as [r [Heq Hr]].
      apply Hfresh. rewrite <- Hx', Heq. by apply (Hrec r Hr).
    + rewrite length_app, saved_app, Hlen. done.
  - rewrite app_nil_r, saved_app. split; [done |]. split; [done |]. split; [done |].
    rewrite Hlen. unfold saved at 2. simpl. destruct o; try done; simpl; lia.
Qed.

Lemma records_sound_recount F0 urls0 fs es c t c' t' log :
  records_sound self F0 urls0 (LoopState fs es c t log) ->
  records_sound self F0 urls0 (LoopState fs es c' t' log).
Proof. done. Qed.

Lemma records_sound_loop F0 urls0 n urls st :
  (forall u, u ∈ urls -> u ∈ urls0) ->
  records_sound self F0 urls0 st ->
  records_sound self F0 urls0 (scrape_loop W self n urls st).
Proof.
  revert st. induction urls as [|url urls IH]; intros st Hsub Hinv; [done |].
  simpl. destruct (scrape_one W self url (ls_files st)) as [[fs new] o] eqn:Eo.
  assert (Hstep := records_sound_step F0 urls0 url st fs new o (count st) (total st)
                     (Hsub url ltac:(left)) Hinv Eo).
  assert (Hsub' : forall u, u ∈ urls -> u ∈ urls0) by (intros u Hin; apply Hsub; by right).
  destruct (reaches_count o); cbn [ls_files essays_data count total attempts].
  - destruct (negb _ && _).
    + by eapply records_sound_recount.
    + apply IH; [done |]. by eapply records_sound_recount.
  - apply IH; [done |]. by eapply records_sound_recount.
Qed.

Lemma records_sound_init n (fs : gmap string string) urls0 :
  records_sound self fs urls0 (scrape_init self n fs).
Proof.
  unfold records_sound. simpl. split; [done |]. split; [|split; [constructor | done]].
  intros r Hr. inversion Hr.
Qed.

(** X9. Every record a run collects names the Markdown and HTML paths of
    one of the URLs; both files are on disk when the loop ends, and the
    Markdown file was not there when the run began; and the run collects
    one record for each post it saved. *)
Theorem scrape_loop_records_on_disk (n : Z) (fs : gmap string string) :
  let st := scrape_loop W self n (post_urls self) (scrape_init self n fs) in
  (forall r, r ∈ essays_data st ->
     file_link r ∈ dom (ls_files st) /\ html_link r ∈ dom (ls_files st)
     /\ (file_link r ∉ dom fs)
     /\ exists url, url ∈ post_urls self /\ file_link r = md_filepath self url
                   /\ html_link r = html_filepath self url)
  /\ length (essays_data st) = saved (attempts st).
Proof.
  intros st.
  destruct (records_sound_loop fs (post_urls self) n (post_urls self) (scrape_init self n fs))
    as (_ & Hrec & _ & Hlen); [done | apply records_sound_init |].
  by split.
Qed.

(** X10. The records of one run have pairwise different Markdown paths,
    so the batch handed to the ledger merge has no duplicates; a ledger
    without duplicates is therefore still without duplicates after
    [scrape_posts]. *)
Theorem scrape_posts_ledger_NoDup (n : Z) (d : disk) :
  NoDup (default [] (ledger d)) ->
  NoDup (file_link <$> essays_data (scrape_loop W self n (post_urls self)
                                       (scrape_init self n (files d))))
  /\ exists l, ledger (scrape_posts W self n d) = Some l /\ NoDup l.
Proof.
  intros Hl.
  destruct (records_sound_loop (files d) (post_urls self) n (post_urls self)
              (scrape_init self n (files d)))
    as (_ & _ & Hnd & _); [done | apply records_sound_init |].
  split; [done |]. apply NoDup_fmap_1 in Hnd.
  unfold scrape_posts, generate_html_file. cbn [ledger files].
  destruct (ledger d) as [existing|]; simpl in *; eexists; (split; [done |]).
  - by apply merge_NoDup.
  - done.
Qed.

End Run.

Lemma scrape_posts_ledger_NoDup_witness :
  let self := Fixture.pub ["https://pub.example/p/a"; "https://pub.example/x/a";
                           "https://pub.example/p/b"] in
  NoDup (file_link <$> essays_data
           (scrape_loop Fixture.site (fetcher := SubstackScraper Fixture.site) self 0
              (post_urls self) (scrape_init self 0 ∅)))
  /\ exists l, ledger (scrape_posts Fixture.site (fetcher := SubstackScraper Fixture.site)
                         self 0 (Disk ∅ None)) = Some l
              /\ NoDup l.
Proof.
  apply (scrape_posts_ledger_NoDup Fixture.site (fetcher := SubstackScraper Fixture.site)
           (Fixture.pub ["https://pub.example/p/a"; "https://pub.example/x/a";
                         "https://pub.example/p/b"]) 0 (Disk ∅ None)).
  simpl. apply NoDup_nil_2.
Defined.

(** ** What a run leaves alone *)

Section Keeps.
Context (W : World) {fetcher : PageFetcher} (self : scraper).

Lemma scrape_one_keeps url (fs fs' : gmap string string) new o p c :
  scrape_one W self url fs = (fs', new, o) ->
  last_char p <> Some "l"%char ->
  fs !! p = Some c -> fs' !! p = Some c.
Proof.
  intros Hone Hp Hc.
  destruct (scrape_one_inv W self _ _ _ _ _ Hone)
    as [(_ & Hnone & [md ->] & _) | (_ & -> & _)]; [|done].
  rewrite lookup_insert_ne.
  - rewrite lookup_insert_ne; [done |]. intros <-. congruence.
  - intros <-. by rewrite html_filepath_last in Hp.
Qed.

Lemma scrape_loop_keeps n urls st p c :
  last_char p <> Some "l"%char ->
  ls_files st !! p = Some c ->
  ls_files (scrape_loop W self n urls st) !! p = Some c.
Proof.
  intros Hp. revert st. induction urls as [|url urls IH]; intros st Hc; [done |].
  simpl. destruct (scrape_one W self url (ls_files st)) as [[fs new] o] eqn:Eo.
  pose proof (scrape_one_keeps _ _ _ _ _ _ _ Eo Hp Hc) as Hc'.
  destruct (reaches_count o); cbn [ls_files essays_data count total attempts].
  - destruct (negb _ && _); [done |]. by apply IH.
  - by apply IH.
Qed.


Lemma scrape_loop_total n urls st :
  (n = 0%Z ->
     (total (scrape_loop W self n urls st) - count (scrape_loop W self n urls st)
      = total st - count st - Z.of_nat (length urls))%Z)
  /\ (n <> 0%Z -> total (scrape_loop W self n urls st) = total st).
Proof.
  revert st. induction urls as [|url urls IH]; intros st.
  - simpl. split; [lia | done].
  - cbn [scrape_loop]. destruct (scrape_one W self url (ls_files st)) as [[fs new] o].
    destruct (reaches_count o); cbn [ls_files essays_data count total attempts].
    + destruct (negb (n =? 0)%Z && _) eqn:Eb.
      * split; [|done]. intros ->. done.
      * match goal with |- context [scrape_loop W self n urls ?s] =>
          destruct (IH s) as [IH0 IHn] end.
        cbn [count total] in IH0, IHn. split.
        -- intros Hn. rewrite (IH0 Hn). cbn [length]. lia.
        -- exact IHn.
    + match goal with |- context [scrape_loop W self n urls ?s] =>
        destruct (IH s) as [IH0 IHn] end.
      cbn [count total] in IH0, IHn. split.
      * intros Hn. rewrite (IH0 Hn). subst n. cbn [length Z.eqb]. lia.
      * intros Hn. rewrite (IHn Hn). by apply Z.eqb_neq in Hn as ->.
Qed.

(** X12. The progress total: with a limit it stays the limit; in
    process-all mode it ends as the number of URLs that reached the
    counter, one being taken off for every URL that gave no document or no
    post data. *)
Theorem scrape_loop_progress_total (n : Z) (fs : gmap string string) :
  let st := scrape_loop W self n (post_urls self) (scrape_init self n fs) in
  (n = 0%Z -> total st = count st) /\ (n <> 0%Z -> total st = n).
Proof.
  intros st. destruct (scrape_loop_total n (post_urls self) (scrape_init self n fs))
    as [H0 Hn]. fold st in H0, Hn. split.
  - intros Hz. specialize (H0 Hz). subst n. simpl in H0. lia.
  - intros Hz. rewrite (Hn Hz). simpl. by apply Z.eqb_neq in Hz as ->.
Qed.

End Keeps.

(** ** The two fetchers *)

(** X13. The browser fetcher has no paywall check: it never returns
    [None], so no URL is skipped for want of a document; and whatever goes
    wrong in either fetcher reaches the loop as a [ValueError]. *)
Theorem fetchers_results (W : World) (self : scraper) (url : string)
    (fs : gmap string string) :
  get_url_soup (PageFetcher := PremiumSubstackScraper W) url <> Ok None
  /\ (scrape_one W (fetcher := PremiumSubstackScraper W) self url fs).2 <> NoSoup
  /\ (forall e, get_url_soup (PageFetcher := PremiumSubstackScraper W) url = Raise e ->
        e = ValueError)
  /\ (forall e, get_url_soup (PageFetcher := SubstackScraper W) url = Raise e ->
        e = ValueError).
Proof.
  assert (Hp : get_url_soup (PageFetcher := PremiumSubstackScraper W) url <> Ok None).
  { unfold get_url_soup, PremiumSubstackScraper. by destruct (driver_page_source W url). }
  split; [done |]. split; [|split].
  - pose proof (scrape_one_outcome W (fetcher := PremiumSubstackScraper W) self url fs) as Ho.
    destruct (scrape_one W self url fs).2; try done. by destruct Ho as [_ Ho].
  - unfold get_url_soup, PremiumSubstackScraper.
    destruct (driver_page_source W url); [done | by intros e' [= <-]].
  - unfold get_url_soup, SubstackScraper.
    destruct (requests_get W url); [|by intros e' [= <-]].
    by destruct (soup_find _ _ _).
Qed.

(** ** File name collisions *)

Lemma md_filepath_segment self pre seg :
  free_of "/" seg = true ->
  md_filepath self (pre +:+ "/" +:+ seg) = os_path_join (md_save_dir self) (seg +:+ ".md").
Proof.
  intros H. unfold md_filepath, get_filename_from_url.
  change (Str.startswith "." ".md") with true. cbv iota.
  change (pre +:+ "/" +:+ seg) with (pre +:+ String "/" seg).
  by rewrite (last_split_segment _ _ _ H).
Qed.

(** X14. Two URLs with the same last segment share their Markdown path:
    once the post of the first is saved, the second is taken as already
    archived, and nothing is fetched, written or recorded for it. *)
Theorem same_segment_is_skipped (W : World) (fetcher : PageFetcher) (self : scraper)
    (pre pre' seg : string) (fs fs' : gmap string string) (new : list essay) :
  free_of "/" seg = true ->
  scrape_one W self (pre +:+ "/" +:+ seg) fs = (fs', new, Saved) ->
  scrape_one W self (pre' +:+ "/" +:+ seg) fs' = (fs', [], AlreadyExists).
Proof.
  intros Hseg Hone.
  destruct (scrape_one_inv W self _ _ _ _ _ Hone)
    as [(_ & _ & [md ->] & _) | (Hns & _)]; [|done].
  unfold scrape_one. rewrite !md_filepath_segment by done.
  rewrite lookup_insert_ne.
  - by rewrite lookup_insert_eq.
  - intros E. apply (f_equal last_char) in E.
    rewrite html_filepath_last in E.
    rewrite <- (md_filepath_segment self pre seg Hseg), md_filepath_last in E. discriminate.
Qed.

Lemma same_segment_is_skipped_witness :
  let first := scrape_one Fixture.site (fetcher := SubstackScraper Fixture.site)
                 (Fixture.pub []) ("https://pub.example/p" +:+ "/" +:+ "a") ∅ in
  scrape_one Fixture.site (fetcher := SubstackScraper Fixture.site) (Fixture.pub [])
    ("https://pub.example/x" +:+ "/" +:+ "a") first.1.1
  = (first.1.1, [], AlreadyExists).
Proof.
  intros first.
  apply (same_segment_is_skipped Fixture.site (SubstackScraper Fixture.site)
           (Fixture.pub []) "https://pub.example/p" "https://pub.example/x" "a" ∅
           first.1.1 first.1.2).
  - reflexivity.
  - reflexivity.
Defined.

(** ** The ledger and the author page after a run *)

(** X15. After any run the ledger file exists and begins with the ledger
    the run found, and the author page on disk is the one made from the
    ledger as the run left it. *)
Theorem scrape_posts_ledger_and_author_page (W : World) (fetcher : PageFetcher)
    (self : scraper) (n : Z) (d : disk) :
  exists l,
    ledger (scrape_posts W self n d) = Some l
    /\ default [] (ledger d) `prefix_of` l
    /\ files (scrape_posts W self n d)
         !! os_path_join BASE_HTML_DIR (writer_name self +:+ ".html")
       = Some (author_page W (writer_name self) l).
Proof.
  unfold scrape_posts, generate_html_file. cbn [ledger files].
  destruct (ledger d) as [existing|]; simpl; eexists; (split; [done |]).
  - split; [by apply prefix_app_r | by rewrite lookup_insert_eq].
  - split; [apply prefix_nil | by rewrite lookup_insert_eq].
Qed.

(** ** Constructing a scraper *)

Lemma ends_with_slash_app s : ends_with_slash (s +:+ "/") = true.
Proof.
  induction s as [|a s IH]; [done |].
  simpl. destruct (s +:+ "/") eqn:E; [by destruct s | done].
Qed.

(** X16. A scraper that [__init__] has built has a base URL ending in a
    slash, the writer name of that URL, save directories that end in the
    writer name, and post URLs none of which contains [about], [archive]
    or [podcast]. *)
Theorem init_invariants (W : World) (base md_dir html_dir : string) (self : scraper) :
  init W base md_dir html_dir = Ok self ->
  ends_with_slash (base_substack_url self) = true
  /\ extract_main_part (base_substack_url self) = Ok (writer_name self)
  /\ md_save_dir self = md_dir +:+ "/" +:+ writer_name self
  /\ html_save_dir self = html_dir +:+ "/" +:+ writer_name self
  /\ Forall (keyword_free ["about"; "archive"; "podcast"]) (post_urls self).
Proof.
  unfold init.
  set (b := if ends_with_slash base then base else base +:+ "/").
  assert (Hb : ends_with_slash b = true).
  { unfold b. destruct (ends_with_slash base) eqn:E; [done | apply ends_with_slash_app]. }
  destruct (extract_main_part b) as [writer|e] eqn:Ew; [|done]. simpl.
  destruct (get_all_post_urls W b) as [urls|e] eqn:Eu; [|done]. simpl.
  intros [= <-]. simpl. repeat split; try done.
  unfold get_all_post_urls in Eu.
  destruct (fetch_urls_from_sitemap W b) as [l|e]; [|done]. simpl in Eu.
  destruct (match l with [] => _ | _ :: _ => _ end) as [l'|e]; [|done]. simpl in Eu.
  destruct (as_strings l') as [us|e]; [|done]. simpl in Eu. injection Eu as <-.
  apply Forall_forall. intros u Hu.
  pose proof (selects_list_filter (keyword_free KEYWORDS) _ us
                (fun x => keyword_free_spec KEYWORDS x)) as Hsel.
  by apply (selects_elem_of _ _ _ u Hsel) in Hu as [_ ?].
Qed.

Lemma init_invariants_witness :
  exists self,
    init Fixture.site "https://pub.example" "substack_md_files" "substack_html_pages" = Ok self
    /\ ends_with_slash (base_substack_url self) = true
    /\ extract_main_part (base_substack_url self) = Ok (writer_name self)
    /\ md_save_dir self = "substack_md_files" +:+ "/" +:+ writer_name self
    /\ html_save_dir self = "substack_html_pages" +:+ "/" +:+ writer_name self
    /\ Forall (keyword_free ["about"; "archive"; "podcast"]) (post_urls self).
Proof.
  exists (Fixture.pub ["https://pub.example/p/a"]). split; [reflexivity |].
  exact (init_invariants Fixture.site "https://pub.example" "substack_md_files"
           "substack_html_pages" (Fixture.pub ["https://pub.example/p/a"]) eq_refl).
Defined.

(** X17. The base URL may be given with or without its trailing slash:
    [__init__] builds the same scraper, or fails the same way. *)
Theorem init_trailing_slash (W : World) (base md_dir html_dir : string) :
  ends_with_slash base = false ->
  init W (base +:+ "/") md_dir html_dir = init W base md_dir html_dir.
Proof.
  intros Hb. unfold init. by rewrite ends_with_slash_app, Hb.
Qed.

Lemma init_trailing_slash_witness :
  init Fixture.site ("https://pub.example" +:+ "/") "md" "html"
  = init Fixture.site "https://pub.example" "md" "html".
Proof. exact (init_trailing_slash Fixture.site "https://pub.example" "md" "html" eq_refl). Defined.

(** ** URL discovery, continued *)

(** X18. When the sitemap lists at least one URL and every [loc] has
    text, the result is the filtered sitemap list: nothing of the feed
    enters it. *)
Theorem sitemap_alone_decides (W : World) (base : string) (us : list string) :
  us <> [] ->
  fetch_urls_from_sitemap W base = Ok (Some <$> us) ->
  get_all_post_urls W base = Ok (filter_urls us ["about"; "archive"; "podcast"]).
Proof.
  intros Hne Hs. unfold get_all_post_urls. rewrite Hs.
  pose proof (as_strings_Some us) as Has.
  destruct (Some <$> us) as [|x l] eqn:El; [by destruct us |].
  simpl. by rewrite Has.
Qed.

Lemma sitemap_alone_decides_witness :
  get_all_post_urls Fixture.site "https://pub.example/"
  = Ok (filter_urls ["https://pub.example/p/a"; "https://pub.example/archive"]
          ["about"; "archive"; "podcast"]).
Proof.
  apply (sitemap_alone_decides Fixture.site "https://pub.example/"
           ["https://pub.example/p/a"; "https://pub.example/archive"]).
  - discriminate.
  - reflexivity.
Defined.

(** X19. A sitemap in which some [loc] element has no text makes
    discovery fail with a [TypeError], raised by the keyword test on
    [None]; the feed is not tried. *)
Theorem sitemap_empty_loc_raises (W : World) (base : string) (l : list (option string)) :
  fetch_urls_from_sitemap W base = Ok l ->
  None ∈ l ->
  get_all_post_urls W base = Raise TypeError.
Proof.
  intros Hs Hin. unfold get_all_post_urls. rewrite Hs. simpl.
  destruct l as [|x l]; [inversion Hin |]. simpl.
  unfold as_strings. destruct (mapM id (x :: l)) as [us|] eqn:E; [|done].
  exfalso. apply mapM_Some in E.
  apply list_elem_of_lookup in Hin as [i Hi].
  destruct (Forall2_lookup_l _ _ _ _ _ E Hi) as (u & _ & Hu). discriminate.
Qed.

Lemma sitemap_empty_loc_raises_witness :
  get_all_post_urls
    (with_xml Fixture.site
       (fun _ => Ok (XmlElem "urlset" None
                       [XmlElem sitemap_loc (Some "https://pub.example/p/a") [];
                        XmlElem sitemap_loc None []])))
    "https://pub.example/"
  = Raise TypeError.
Proof.
  apply (sitemap_empty_loc_raises _ _ [Some "https://pub.example/p/a"; None]).
  - reflexivity.
  - right. left.
Defined.

(** X20. The feed gives no empty URL: an item without [link], or whose
    link has no text, is left out. *)
Theorem feed_urls_nonempty (W : World) (base : string) (us : list string) :
  fetch_urls_from_feed W base = Ok us ->
  Forall (fun u => u <> EmptyString) us.
Proof.
  unfold fetch_urls_from_feed.
  destruct (requests_get W (base +:+ "feed.xml")) as [r|e]; [|done]. simpl.
  destruct (ok r); simpl; [|intros [= <-]; constructor].
  destruct (ET_fromstring W (content r)) as [root|e]; [|done]. simpl.
  intros [= <-]. apply Forall_forall. intros u Hu.
  apply list_elem_of_omap in Hu as (item & _ & Hitem).
  unfold feed_item_link in Hitem.
  destruct (xml_find "link" item) as [link|]; [|done].
  destruct (xml_text link) as [t|]; [|done].
  destruct t; [done |]. by injection Hitem as <-.
Qed.

Lemma feed_urls_nonempty_witness :
  Forall (fun u => u <> EmptyString) ["https://pub.example/p/a"; "https://pub.example/p/b"].
Proof.
  exact (feed_urls_nonempty Fixture.site "https://pub.example/"
           ["https://pub.example/p/a"; "https://pub.example/p/b"] eq_refl).
Defined.

(** ** What an extracted post looks like *)

Lemma lstrip_head s :
  match Str.lstrip s with
  | EmptyString => True
  | String a _ => Str.isspace a = false
  end.
Proof.
  induction s as [|a s IH]; simpl; [done |].
  destruct (Str.isspace a) eqn:E; [exact IH | exact E].
Qed.

Lemma rstrip_keeps_head a s :
  Str.isspace a = false -> exists r, Str.rstrip (String a s) = String a r.
Proof.
  intros Ha. simpl. destruct (Str.rstrip s); [rewrite Ha |]; eauto.
Qed.

Lemma rstrip_idempotent s : Str.rstrip (Str.rstrip s) = Str.rstrip s.
Proof.
  induction s as [|a s IH]; simpl; [done |].
  destruct (Str.rstrip s) as [|b r] eqn:E.
  - destruct (Str.isspace a) eqn:Ea; simpl; [done | by rewrite Ea].
  - change (Str.rstrip (String a (String b r))) with
      (match Str.rstrip (String b r) with
       | EmptyString => if Str.isspace a then EmptyString else String a EmptyString
       | r' => String a r'
       end).
    by rewrite IH.
Qed.

Lemma strip_idempotent s : Str.strip (Str.strip s) = Str.strip s.
Proof.
  unfold Str.strip. pose proof (lstrip_head s) as Hh.
  destruct (Str.lstrip s) as [|a x]; [done |].
  destruct (rstrip_keeps_head a x Hh) as [r Hr]. rewrite Hr.
  simpl Str.lstrip. rewrite Hh, <- Hr. apply rstrip_idempotent.
Qed.

(** X21. In an extracted post the title is not empty and has no white
    space at either end, the subtitle and the date have none either, the
    like count passes [isdigit], and the Markdown is the metadata header
    followed by the converted content container. *)
Theorem extract_post_data_fields (W : World) (doc : soup) (t s lc d md : string) :
  extract_post_data W doc = Some (t, s, lc, d, md) ->
  t <> EmptyString
  /\ Str.strip t = t /\ Str.strip s = s /\ Str.strip d = d
  /\ Str.isdigit lc = true
  /\ exists container,
       select_one content_selector doc = Some container
       /\ md = combine_metadata_and_content t s d lc
                 (html2text_handle W (tag_str W container)).
Proof.
  unfold extract_post_data.
  destruct (select_one title_selector doc) as [te|]; [|done].
  destruct (Str.truthy (Str.strip (get_text te))) eqn:Et; [|done]. simpl.
  destruct (select_one content_selector doc) as [ce|]; [|done].
  intros [= <- <- <- <- <-].
  split; [by destruct (Str.strip (get_text te)) |].
  split; [apply strip_idempotent |]. split; [|split; [|split]].
  - unfold extract_subtitle. destruct (select_one subtitle_selector doc) as [e|]; [|done].
    destruct (Str.truthy (get_text e)); [apply strip_idempotent | done].
  - unfold extract_date. destruct (soup_find "div" date_class doc) as [e|]; [|done].
    destruct (Str.truthy (get_text e)); [apply strip_idempotent | done].
  - unfold extract_like_count. destruct (select_one like_selector doc) as [e|]; [|done].
    destruct (Str.truthy (get_text e)); simpl; [|done].
    by destruct (Str.isdigit (Str.strip (get_text e))) eqn:Ed.
  - by exists ce.
Qed.

Lemma extract_post_data_fields_witness :
  "Hello" <> EmptyString
  /\ Str.strip "Hello" = "Hello" /\ Str.strip "" = "" /\ Str.strip "Date not found" = "Date not found"
  /\ Str.isdigit "42" = true
  /\ exists container,
       select_one content_selector Fixture.doc_a = Some container
       /\ combine_metadata_and_content "Hello" "" "Date not found" "42" "Body"
          = combine_metadata_and_content "Hello" "" "Date not found" "42"
              (html2text_handle Fixture.site (tag_str Fixture.site container)).
Proof.
  exact (extract_post_data_fields Fixture.site Fixture.doc_a _ _ _ _ _ like_count_numeric).
Defined.

(** ** Edge cases of the keyword filter and of the writer name *)

(** X22. Without keywords the filter keeps every URL; with the empty
    string among the keywords it keeps none, as the empty string occurs in
    every URL; and filtering a concatenation filters its parts. *)
Theorem filter_urls_edge_cases (urls urls' keywords : list string) :
  filter_urls urls [] = urls
  /\ (EmptyString ∈ keywords -> filter_urls urls keywords = [])
  /\ filter_urls (urls ++ urls') keywords
     = filter_urls urls keywords ++ filter_urls urls' keywords.
Proof.
  split; [|split].
  - unfold filter_urls. simpl. induction urls as [|u us IH]; simpl; [done | by rewrite IH].
  - intros Hin. unfold filter_urls. induction urls as [|u us IH]; simpl; [done |].
    rewrite IH. destruct (List.forallb _ keywords) eqn:E; [|done].
    rewrite forallb_forall in E. apply list_elem_of_In in Hin.
    specialize (E _ Hin). by destruct u.
  - unfold filter_urls. apply List.filter_app.
Qed.



(** ** What a saved post leaves on disk *)

Section SavedPost.
Context (W : World) {fetcher : PageFetcher} (self : scraper).

(** X24. When the loop body saves a post, the document was fetched and
    extracted, the Markdown file now holds the extracted Markdown, the HTML
    file holds the page made from it, and the one record collected carries
    the extracted fields and the two paths. *)
Theorem saved_post_on_disk (url : string) (fs fs' : gmap string string)
    (new : list essay) :
  scrape_one W self url fs = (fs', new, Saved) ->
  exists doc t s lc d md,
    get_url_soup url = Ok (Some doc)
    /\ extract_post_data W doc = Some (t, s, lc, d, md)
    /\ fs' !! md_filepath self url = Some md
    /\ fs' !! html_filepath self url
       = Some (html_document W (html_filepath self url) (markdown_markdown W md))
    /\ new = [Essay t s lc d (md_filepath self url) (html_filepath self url)].
Proof.
  unfold scrape_one. destruct (fs !! md_filepath self url) eqn:E; [done |].
  destruct (get_url_soup url) as [[doc|]|e]; [|done|done].
  destruct (extract_post_data W doc) as [[[[[t s] lc] d] md]|] eqn:Ex; [|done].
  intros [= <- <-]. exists doc, t, s, lc, d, md.
  split; [done |]. split; [done |]. unfold save_to_html_file, save_to_file. rewrite E.
  split; [|split; [by rewrite lookup_insert_eq | done]].
  rewrite lookup_insert_ne; [by rewrite lookup_insert_eq |].
  intros Heq. apply (f_equal last_char) in Heq.
  rewrite html_filepath_last, md_filepath_last in Heq. discriminate.
Qed.

Lemma scrape_loop_all_archived urls st url doc x :
  url ∈ urls ->
  get_url_soup url = Ok (Some doc) ->
  extract_post_data W doc = Some x ->
  md_filepath self url ∈ dom (ls_files (scrape_loop W self 0 urls st)).
Proof.
  intros Hin Hget Hex. revert st.
  induction urls as [|u urls IH]; intros st; [inversion Hin |].
  cbn [scrape_loop].
  destruct (scrape_one W self u (ls_files st)) as [[fs new] o] eqn:Eo.
  assert (Hrest : forall s' : loop_state, ls_files s' = fs -> u = url ->
            md_filepath self url ∈ dom (ls_files (scrape_loop W self 0 urls s'))).
  { intros s' Hs' ->. apply (scrape_loop_dom W self 0 urls s'). rewrite Hs'.
    unfold scrape_one in Eo.
    destruct (ls_files st !! md_filepath self url) eqn:E.
    - injection Eo as <- _ _. apply elem_of_dom. eauto.
    - rewrite Hget, Hex in Eo. destruct x as [[[[t s] lc] d] md].
      injection Eo as <- _ _. unfold save_to_html_file, save_to_file. rewrite E.
      rewrite !dom_insert_L. apply elem_of_union_r, elem_of_union_l.
      by apply elem_of_singleton. }
  apply elem_of_cons in Hin as [<- | Hin].
  - destruct (reaches_count o); cbn [ls_files essays_data count total attempts Z.eqb negb andb];
      by apply Hrest.
  - destruct (reaches_count o); cbn [ls_files essays_data count total attempts Z.eqb negb andb];
      by apply IH.
Qed.


End SavedPost.

Lemma saved_post_on_disk_witness :
  let first := scrape_one Fixture.site (fetcher := SubstackScraper Fixture.site)
                 (Fixture.pub []) "https://pub.example/p/a" ∅ in
  exists doc t s lc d md,
    get_url_soup (PageFetcher := SubstackScraper Fixture.site) "https://pub.example/p/a"
      = Ok (Some doc)
    /\ extract_post_data Fixture.site doc = Some (t, s, lc, d, md)
    /\ first.1.1 !! md_filepath (Fixture.pub []) "https://pub.example/p/a" = Some md
    /\ first.1.1 !! html_filepath (Fixture.pub []) "https://pub.example/p/a"
       = Some (html_document Fixture.site
                 (html_filepath (Fixture.pub []) "https://pub.example/p/a")
                 (markdown_markdown Fixture.site md))
    /\ first.1.2
       = [Essay t s lc d (md_filepath (Fixture.pub []) "https://pub.example/p/a")
            (html_filepath (Fixture.pub []) "https://pub.example/p/a")].
Proof.
  intros first.
  apply (saved_post_on_disk Fixture.site (fetcher := SubstackScraper Fixture.site)
           (Fixture.pub []) "https://pub.example/p/a" ∅ first.1.1 first.1.2).
  reflexivity.
Defined.

